(** * A shallow embedding of the TMC protocol decoder (pd.py)

    The decoder for the two- and three-wire serial bus of the Titan Micro
    TM1636/37/38 display drivers is a Python class driven by the host's
    [wait] call.  This development embeds its helpers ([format_data],
    [compose_annot]) and its state machine ([Decoder.decode] and the
    handlers it calls) as Rocq functions, and proves the properties that
    the specification states about them.

    Conventions of the embedding:
    - Python integers are [Z]; bit operations are [Z.shiftr], [Z.shiftl]
      and [Z.lor], as in the source.
    - Python floats are IEEE 754 binary64 numbers: [spec_float] with
      precision 53 and maximal exponent 1024.
    - Python strings are [string]s of 8-bit characters.
    - The attributes of [self] are the fields of the record [decoder];
      a method is a function in the monad [M], which threads the decoder,
      collects what [self.put] emits and propagates exceptions. *)

From Stdlib Require Import ZArith List String Ascii Bool Lia SpecFloat.
Import ListNotations.

Local Open Scope string_scope.
Local Open Scope list_scope.
Local Open Scope Z_scope.

(* ###################################################################### *)
(** * Python strings and integer formatting *)

Module PyStr.

Definition digit_char (d : Z) : ascii :=
  if d <? 10
  then ascii_of_N (Z.to_N (48 + d))
  else ascii_of_N (Z.to_N (87 + d)).

(** Digits of a non-negative integer, most significant first. *)
Fixpoint to_digits (fuel : nat) (base n : Z) (acc : string) : string :=
  match fuel with
  | O => acc
  | S fuel' =>
      let acc' := String (digit_char (n mod base)) acc in
      if n / base =? 0 then acc' else to_digits fuel' base (n / base) acc'
  end.

Definition digits (base n : Z) : string :=
  to_digits (S (Z.to_nat (Z.log2 n))) base n EmptyString.

Fixpoint zeros (n : nat) : string :=
  match n with
  | O => EmptyString
  | S n' => String "0" (zeros n')
  end.

(** [format_int prefix base width n] is Python's
    ["{:#0<width><type>}".format(n)]: sign, radix prefix, then the
    digits, zero-filled between prefix and digits up to [width]
    characters in total.  [width = 0] is the format without a width. *)
Definition format_int (prefix : string) (base : Z) (width : nat) (n : Z)
  : string :=
  let sign := if n <? 0 then "-" else EmptyString in
  let ds := digits base (Z.abs n) in
  let used := (length sign + length prefix + length ds)%nat in
  (sign ++ prefix ++ zeros (width - used) ++ ds)%string.

(** [str(n)] for an integer. *)
Definition str_int (n : Z) : string := format_int EmptyString 10 0 n.

Definition upper_char (c : ascii) : ascii :=
  let k := N_of_ascii c in
  if ((97 <=? k) && (k <=? 122))%N then ascii_of_N (k - 32) else c.

(** [s.upper()] on 8-bit characters. *)
Fixpoint upper (s : string) : string :=
  match s with
  | EmptyString => EmptyString
  | String c s' => String (upper_char c) (upper s')
  end.

Definition is_space (c : ascii) : bool :=
  let k := N_of_ascii c in
  (((9 <=? k) && (k <=? 13)) || ((28 <=? k) && (k <=? 32)))%N.

Fixpoint lstrip (s : string) : string :=
  match s with
  | EmptyString => EmptyString
  | String c s' => if is_space c then lstrip s' else s
  end.

Fixpoint rstrip (s : string) : string :=
  match s with
  | EmptyString => EmptyString
  | String c s' =>
      match rstrip s' with
      | EmptyString => if is_space c then EmptyString else String c EmptyString
      | r => String c r
      end
  end.

(** [s.strip()]. *)
Definition strip (s : string) : string := rstrip (lstrip s).

(** Insertion in a list sorted by decreasing length; among equal
    lengths the inserted string comes first. *)
Fixpoint insert_desc (x : string) (l : list string) : list string :=
  match l with
  | [] => [x]
  | y :: l' =>
      if (length x <? length y)%nat then y :: insert_desc x l'
      else x :: l
  end.

(** [l.sort(key=len, reverse=True)]: stable, longest first. *)
Definition sort_len_desc (l : list string) : list string :=
  fold_right insert_desc [] l.

Definition lower_char (c : ascii) : ascii :=
  let k := N_of_ascii c in
  if ((65 <=? k) && (k <=? 90))%N then ascii_of_N (k + 32) else c.

(** [s.lower()] on ASCII letters. *)
Fixpoint lower (s : string) : string :=
  match s with
  | EmptyString => EmptyString
  | String c s' => String (lower_char c) (lower s')
  end.

End PyStr.

(* ###################################################################### *)
(** * Helpers of pd.py *)

(** [format_data(data, radix="Hex")]. *)
Definition format_data (data : Z) (radix : string) : string :=
  let radix := PyStr.upper radix in
  if (radix =? "DEC")%string then PyStr.format_int EmptyString 10 0 data
  else if (radix =? "BIN")%string then PyStr.format_int "0b" 2 0 data
  else if (radix =? "OCT")%string then PyStr.format_int "0o" 8 0 data
  else PyStr.format_int "0x" 16 4 data.

(** An argument of [compose_annot]: [None], one string, or a list. *)
Inductive annot_arg :=
| ArgNone
| ArgStr (s : string)
| ArgList (l : list string).

Definition arg_list (a : annot_arg) : list string :=
  match a with
  | ArgNone => []
  | ArgStr s => [s]
  | ArgList l => l
  end.

(** The item with each unit appended in turn, cumulatively. *)
Fixpoint with_units (item : string) (units : list string) : list string :=
  match units with
  | [] => []
  | u :: units' => (item ++ u)%string :: with_units (item ++ u)%string units'
  end.

(** The last two items of a list: [l[-2:]]. *)
Definition last_two {A} (l : list A) : list A :=
  skipn (List.length l - 2) l.

(** [compose_annot(ann_label, ann_value, ann_unit, ann_action)]. *)
Definition compose_annot (ann_label ann_value ann_unit ann_action : annot_arg)
  : list string :=
  let ann_label :=
    match ann_label with
    | ArgNone => [EmptyString]
    | a => arg_list a
    end in
  let ann_value := arg_list ann_value in
  let ann_unit := arg_list ann_unit in
  let ann_action :=
    match arg_list ann_action with
    | [] => [EmptyString]
    | l => l
    end in
  let annots :=
    flat_map (fun act =>
      flat_map (fun lbl =>
        let ann := PyStr.strip (act ++ " " ++ lbl)%string in
        match ann_value with
        | [] => [ann]
        | _ =>
            flat_map (fun val =>
              let ann_item :=
                if (0 <? length ann)%nat
                then (ann ++ ": " ++ val)%string else val in
              ann_item :: with_units ann_item ann_unit) ann_value
        end) ann_label) ann_action in
  let tail :=
    match ann_value with
    | [] => []
    | _ => filter (fun ann => (0 <? length ann)%nat) (last_two ann_label)
    end in
  PyStr.sort_len_desc (annots ++ tail).

(* ###################################################################### *)
(** * Python exceptions and floats *)

(** The exceptions that the code of pd.py can raise. *)
Inductive exn :=
| SamplerateError
| ChannelError
| ZeroDivisionError
| OverflowError
| ValueError
| TypeError
| IndexError
| AttributeError.

Inductive outcome (A : Type) :=
| Ok (a : A)
| Raise (e : exn).
Arguments Ok {A} a.
Arguments Raise {A} e.

Module PyFloat.

Definition prec : Z := 53.
Definition emax : Z := 1024.

(** [float(n)] for an integer: the nearest binary64 number, ties to
    even; an integer beyond the range of the format raises. *)
Definition of_int (n : Z) : outcome spec_float :=
  match binary_normalize prec emax n 0 false with
  | S754_infinity _ => Raise OverflowError
  | f => Ok f
  end.

Definition is_zero (x : spec_float) : bool :=
  match x with
  | S754_zero _ => true
  | _ => false
  end.

(** [bool(x)]: every float but zero is true, NaN included. *)
Definition truthy (x : spec_float) : bool := negb (is_zero x).

(** [x / y]: a zero divisor raises, whatever the dividend. *)
Definition div (x y : spec_float) : outcome spec_float :=
  if is_zero y then Raise ZeroDivisionError
  else Ok (SFdiv prec emax x y).

(** [x * y]; overflow gives an infinity, no exception. *)
Definition mul (x y : spec_float) : spec_float := SFmul prec emax x y.

(** [int(x)]: truncation towards zero. *)
Definition to_int (x : spec_float) : outcome Z :=
  match x with
  | S754_zero _ => Ok 0
  | S754_infinity _ => Raise OverflowError
  | S754_nan => Raise ValueError
  | S754_finite s m e =>
      let a :=
        match e with
        | Z0 => Zpos m
        | Zpos p => Zpos m * 2 ^ Zpos p
        | Zneg p => Zpos m / 2 ^ Zpos p
        end in
      Ok (if s then - a else a)
  end.

End PyFloat.

(* ###################################################################### *)
(** * The decoder's data *)

(** Channels: [CLK = 0], [DIO = 1], [STB = 2]. *)
Inductive channel := CLK | DIO | STB.

(** [class AnnProtocol]: [START .. BIT = range(7)]. *)
Inductive AnnProtocol := START | STOP | ACK | NACK | COMMAND | DATA | BIT.

(** [class AnnBinary]. *)
Definition AnnBinary_DATA : Z := 0.

(** The dictionary [commands]. *)
Definition commands (cmd : AnnProtocol) : string :=
  match cmd with
  | START => "START"
  | STOP => "STOP"
  | ACK => "ACK"
  | NACK => "NACK"
  | COMMAND => "COMMAND"
  | DATA => "DATA"
  | BIT => "BITS"
  end.

(** The dictionary [protocol]. *)
Definition protocol (cmd : AnnProtocol) : list string :=
  match cmd with
  | START => ["Start"; "S"]
  | STOP => ["Stop"; "P"]
  | ACK => ["ACK"; "A"]
  | NACK => ["NACK"; "N"]
  | COMMAND => ["Command"; "Cmd"; "C"]
  | DATA => ["Data"; "D"]
  | BIT => ["Bit"; "B"]
  end.

(** An entry of [self.bits]: the list [[dio, ss, es]]. *)
Record bit := Bit { bit_val : Z; bit_ss : Z; bit_es : Z }.

(** The second item of a packet on the Python output. *)
Inductive pdata :=
| PNone
| PByte (databyte : Z)
| PBits (bits : list bit).

(** What [self.put(ss, es, output, data)] emits, by output. *)
Inductive output :=
| out_python (ss es : Z) (ptype : string) (pd : pdata)
| out_ann (ss es : Z) (cmd : AnnProtocol) (annots : list string)
| out_binary (ss es : Z) (cls : Z) (data : list Z)
| out_bitrate (ss es : Z) (bitrate : Z).

(** Values of [self.bustype]: the strings "wire2" and "wire3". *)
Inductive bus := wire2 | wire3.

(** Values of [self.state]. *)
Inductive dstate := FIND_START | FIND_DATA | FIND_ACK | FIND_STOP.

(** The attributes of a [Decoder] instance.  [samplenum] and [matched]
    are maintained by the host's [wait]; [radix] is [options["radix"]]. *)
Record decoder := mkDecoder {
  ss : Z;
  es : Z;
  ss_byte : Z;
  ss_ack : Z;
  samplerate : option Z;
  pdu_start : option Z;
  pdu_bits : Z;
  bustype : option bus;
  bytecount : Z;
  bitcount : Z;
  databyte : Z;
  bits : list bit;
  state : dstate;
  samplenum : Z;
  matched : list bool;
  radix : string
}.

Definition set_ss v (d : decoder) : decoder :=
  let '(mkDecoder _ x_es x_ss_byte x_ss_ack x_samplerate x_pdu_start
    x_pdu_bits x_bustype x_bytecount x_bitcount x_databyte x_bits x_state
    x_samplenum x_matched x_radix) := d in
  mkDecoder v x_es x_ss_byte x_ss_ack x_samplerate x_pdu_start x_pdu_bits
    x_bustype x_bytecount x_bitcount x_databyte x_bits x_state x_samplenum
    x_matched x_radix.
Definition set_es v (d : decoder) : decoder :=
  let '(mkDecoder x_ss _ x_ss_byte x_ss_ack x_samplerate x_pdu_start
    x_pdu_bits x_bustype x_bytecount x_bitcount x_databyte x_bits x_state
    x_samplenum x_matched x_radix) := d in
  mkDecoder x_ss v x_ss_byte x_ss_ack x_samplerate x_pdu_start x_pdu_bits
    x_bustype x_bytecount x_bitcount x_databyte x_bits x_state x_samplenum
    x_matched x_radix.
Definition set_ss_byte v (d : decoder) : decoder :=
  let '(mkDecoder x_ss x_es _ x_ss_ack x_samplerate x_pdu_start x_pdu_bits
    x_bustype x_bytecount x_bitcount x_databyte x_bits x_state x_samplenum
    x_matched x_radix) := d in
  mkDecoder x_ss x_es v x_ss_ack x_samplerate x_pdu_start x_pdu_bits
    x_bustype x_bytecount x_bitcount x_databyte x_bits x_state x_samplenum
    x_matched x_radix.
Definition set_ss_ack v (d : decoder) : decoder :=
  let '(mkDecoder x_ss x_es x_ss_byte _ x_samplerate x_pdu_start x_pdu_bits
    x_bustype x_bytecount x_bitcount x_databyte x_bits x_state x_samplenum
    x_matched x_radix) := d in
  mkDecoder x_ss x_es x_ss_byte v x_samplerate x_pdu_start x_pdu_bits
    x_bustype x_bytecount x_bitcount x_databyte x_bits x_state x_samplenum
    x_matched x_radix.
Definition set_samplerate v (d : decoder) : decoder :=
  let '(mkDecoder x_ss x_es x_ss_byte x_ss_ack _ x_pdu_start x_pdu_bits
    x_bustype x_bytecount x_bitcount x_databyte x_bits x_state x_samplenum
    x_matched x_radix) := d in
  mkDecoder x_ss x_es x_ss_byte x_ss_ack v x_pdu_start x_pdu_bits x_bustype
    x_bytecount x_bitcount x_databyte x_bits x_state x_samplenum x_matched
    x_radix.
Definition set_pdu_start v (d : decoder) : decoder :=
  let '(mkDecoder x_ss x_es x_ss_byte x_ss_ack x_samplerate _ x_pdu_bits
    x_bustype x_bytecount x_bitcount x_databyte x_bits x_state x_samplenum
    x_matched x_radix) := d in
  mkDecoder x_ss x_es x_ss_byte x_ss_ack x_samplerate v x_pdu_bits x_bustype
    x_bytecount x_bitcount x_databyte x_bits x_state x_samplenum x_matched
    x_radix.
Definition set_pdu_bits v (d : decoder) : decoder :=
  let '(mkDecoder x_ss x_es x_ss_byte x_ss_ack x_samplerate x_pdu_start _
    x_bustype x_bytecount x_bitcount x_databyte x_bits x_state x_samplenum
    x_matched x_radix) := d in
  mkDecoder x_ss x_es x_ss_byte x_ss_ack x_samplerate x_pdu_start v x_bustype
    x_bytecount x_bitcount x_databyte x_bits x_state x_samplenum x_matched
    x_radix.
Definition set_bustype v (d : decoder) : decoder :=
  let '(mkDecoder x_ss x_es x_ss_byte x_ss_ack x_samplerate x_pdu_start
    x_pdu_bits _ x_bytecount x_bitcount x_databyte x_bits x_state x_samplenum
    x_matched x_radix) := d in
  mkDecoder x_ss x_es x_ss_byte x_ss_ack x_samplerate x_pdu_start x_pdu_bits
    v x_bytecount x_bitcount x_databyte x_bits x_state x_samplenum x_matched
    x_radix.
Definition set_bytecount v (d : decoder) : decoder :=
  let '(mkDecoder x_ss x_es x_ss_byte x_ss_ack x_samplerate x_pdu_start
    x_pdu_bits x_bustype _ x_bitcount x_databyte x_bits x_state x_samplenum
    x_matched x_radix) := d in
  mkDecoder x_ss x_es x_ss_byte x_ss_ack x_samplerate x_pdu_start x_pdu_bits
    x_bustype v x_bitcount x_databyte x_bits x_state x_samplenum x_matched
    x_radix.
Definition set_bitcount v (d : decoder) : decoder :=
  let '(mkDecoder x_ss x_es x_ss_byte x_ss_ack x_samplerate x_pdu_start
    x_pdu_bits x_bustype x_bytecount _ x_databyte x_bits x_state x_samplenum
    x_matched x_radix) := d in
  mkDecoder x_ss x_es x_ss_byte x_ss_ack x_samplerate x_pdu_start x_pdu_bits
    x_bustype x_bytecount v x_databyte x_bits x_state x_samplenum x_matched
    x_radix.
Definition set_databyte v (d : decoder) : decoder :=
  let '(mkDecoder x_ss x_es x_ss_byte x_ss_ack x_samplerate x_pdu_start
    x_pdu_bits x_bustype x_bytecount x_bitcount _ x_bits x_state x_samplenum
    x_matched x_radix) := d in
  mkDecoder x_ss x_es x_ss_byte x_ss_ack x_samplerate x_pdu_start x_pdu_bits
    x_bustype x_bytecount x_bitcount v x_bits x_state x_samplenum x_matched
    x_radix.
Definition set_bits v (d : decoder) : decoder :=
  let '(mkDecoder x_ss x_es x_ss_byte x_ss_ack x_samplerate x_pdu_start
    x_pdu_bits x_bustype x_bytecount x_bitcount x_databyte _ x_state
    x_samplenum x_matched x_radix) := d in
  mkDecoder x_ss x_es x_ss_byte x_ss_ack x_samplerate x_pdu_start x_pdu_bits
    x_bustype x_bytecount x_bitcount x_databyte v x_state x_samplenum
    x_matched x_radix.
Definition set_state v (d : decoder) : decoder :=
  let '(mkDecoder x_ss x_es x_ss_byte x_ss_ack x_samplerate x_pdu_start
    x_pdu_bits x_bustype x_bytecount x_bitcount x_databyte x_bits _
    x_samplenum x_matched x_radix) := d in
  mkDecoder x_ss x_es x_ss_byte x_ss_ack x_samplerate x_pdu_start x_pdu_bits
    x_bustype x_bytecount x_bitcount x_databyte x_bits v x_samplenum
    x_matched x_radix.
Definition set_samplenum v (d : decoder) : decoder :=
  let '(mkDecoder x_ss x_es x_ss_byte x_ss_ack x_samplerate x_pdu_start
    x_pdu_bits x_bustype x_bytecount x_bitcount x_databyte x_bits x_state _
    x_matched x_radix) := d in
  mkDecoder x_ss x_es x_ss_byte x_ss_ack x_samplerate x_pdu_start x_pdu_bits
    x_bustype x_bytecount x_bitcount x_databyte x_bits x_state v x_matched
    x_radix.
Definition set_matched v (d : decoder) : decoder :=
  let '(mkDecoder x_ss x_es x_ss_byte x_ss_ack x_samplerate x_pdu_start
    x_pdu_bits x_bustype x_bytecount x_bitcount x_databyte x_bits x_state
    x_samplenum _ x_radix) := d in
  mkDecoder x_ss x_es x_ss_byte x_ss_ack x_samplerate x_pdu_start x_pdu_bits
    x_bustype x_bytecount x_bitcount x_databyte x_bits x_state x_samplenum v
    x_radix.

(* ###################################################################### *)
(** * The monad of the decoder's methods *)

(** A method takes the decoder and gives back either a result with the
    updated decoder or the exception raised, together with what it has
    emitted up to that point. *)
Definition M (A : Type) : Type :=
  decoder -> outcome (A * decoder) * list output.

Definition ret {A} (a : A) : M A := fun d => (Ok (a, d), []).

Definition bind {A B} (m : M A) (k : A -> M B) : M B :=
  fun d =>
    match m d with
    | (Ok (a, d'), o) => let r := k a d' in (fst r, o ++ snd r)
    | (Raise e, o) => (Raise e, o)
    end.

Definition raise {A} (e : exn) : M A := fun _ => (Raise e, []).

Definition lift {A} (r : outcome A) : M A :=
  match r with
  | Ok a => ret a
  | Raise e => raise e
  end.

Definition gets {A} (f : decoder -> A) : M A := fun d => (Ok (f d, d), []).

Definition modify (f : decoder -> decoder) : M unit :=
  fun d => (Ok (tt, f d), []).

(** [self.put]. *)
Definition put (o : output) : M unit := fun d => (Ok (tt, d), [o]).

Declare Scope py_scope.
Delimit Scope py_scope with py.
Notation "x <- m ;; k" := (bind m (fun x => k))
  (at level 61, m at next level, right associativity) : py_scope.
Notation "m ;; k" := (bind m (fun _ => k))
  (at level 61, right associativity) : py_scope.
Local Open Scope py_scope.

(** [when c m]: an [if] without [else]. *)
Definition when (c : bool) (m : M unit) : M unit := if c then m else ret tt.

(** A [for] loop over a list. *)
Fixpoint for_each {A} (l : list A) (body : A -> M unit) : M unit :=
  match l with
  | [] => ret tt
  | a :: l' => body a ;; for_each l' body
  end.

(* ###################################################################### *)
(** * The methods of [Decoder] *)

(** Pin values for (CLK, DIO, STB) as returned by [wait]. *)
Definition pins : Type := Z * Z * Z.

(** [l[-n:]]. *)
Definition last_n {A} (n : nat) (l : list A) : list A :=
  skipn (List.length l - n) l.

(** [bytes([v])]. *)
Definition py_bytes1 (v : Z) : outcome (list Z) :=
  if (0 <=? v) && (v <? 256) then Ok [v] else Raise ValueError.

(** [(a, b)[i]] for a pair. *)
Definition pair_index {A} (a b : A) (i : Z) : outcome A :=
  if (i =? 0) || (i =? -2) then Ok a
  else if (i =? 1) || (i =? -1) then Ok b
  else Raise IndexError.

(** [self.matched[i]]. *)
Definition matched_at (i : nat) : M bool :=
  m <- gets matched ;;
  match nth_error m i with
  | Some b => ret b
  | None => raise IndexError
  end.

Definition reset : decoder -> decoder := fun d =>
  mkDecoder (-1) (-1) (-1) (-1) None None 0 None 0 0 0 [] FIND_START
            (samplenum d) (matched d) (radix d).

(** The keys of [metadata]: the sample rate, or any other. *)
Inductive conf_key := SRD_CONF_SAMPLERATE | SRD_CONF_OTHER.

Definition metadata (key : conf_key) (value : Z) (d : decoder) : decoder :=
  match key with
  | SRD_CONF_SAMPLERATE => set_samplerate (Some value) d
  | SRD_CONF_OTHER => d
  end.

Definition putx (cmd : AnnProtocol) (annots : list string) : M unit :=
  s <- gets ss ;; e <- gets es ;; put (out_ann s e cmd annots).

Definition putp (ptype : string) (pd : pdata) : M unit :=
  s <- gets ss ;; e <- gets es ;; put (out_python s e ptype pd).

Definition putb (cls : Z) (data : list Z) : M unit :=
  s <- gets ss ;; e <- gets es ;; put (out_binary s e cls data).

Definition clear_data : M unit :=
  modify (set_bitcount 0) ;;
  modify (set_databyte 0) ;;
  modify (set_bits []).

Definition handle_bitrate : M unit :=
  sr <- gets samplerate ;;
  fsr <- match sr with
         | Some z => lift (PyFloat.of_int z)
         | None => raise TypeError
         end ;;
  one <- lift (PyFloat.of_int 1) ;;
  elapsed <- lift (PyFloat.div one fsr) ;;
  n <- gets samplenum ;;
  ps <- gets pdu_start ;;
  k <- match ps with
       | Some p => ret (n - p - 1)
       | None => raise TypeError
       end ;;
  fk <- lift (PyFloat.of_int k) ;;
  let elapsed := PyFloat.mul elapsed fk in
  when (PyFloat.truthy elapsed) (
    q <- lift (PyFloat.div one elapsed) ;;
    pb <- gets pdu_bits ;;
    fpb <- lift (PyFloat.of_int pb) ;;
    bitrate <- lift (PyFloat.to_int (PyFloat.mul q fpb)) ;;
    sb <- gets ss_byte ;;
    put (out_bitrate sb n bitrate)).

Definition handle_start (p : pins) : M unit :=
  n <- gets samplenum ;;
  modify (set_ss n) ;; modify (set_es n) ;;
  modify (set_pdu_start (Some n)) ;;
  modify (set_pdu_bits 0) ;;
  modify (set_bytecount 0) ;;
  let cmd := START in
  putp (commands cmd) PNone ;;
  putx cmd (protocol cmd) ;;
  clear_data ;;
  modify (set_state FIND_DATA).

(** The front bit of the buffer pushed by the data handlers. *)
Definition push_bit (dio : Z) : M unit :=
  n <- gets samplenum ;;
  modify (fun d => set_bits (Bit dio n n :: bits d) d).

(** [self.bits[1][2] = self.samplenum]. *)
Definition close_previous_bit : M unit :=
  n <- gets samplenum ;;
  bs <- gets bits ;;
  match bs with
  | b0 :: b1 :: rest =>
      modify (set_bits (b0 :: Bit (bit_val b1) (bit_ss b1) n :: rest))
  | _ => raise IndexError
  end.

(** [self.bits[i]]. *)
Definition bits_at (i : nat) : M bit :=
  bs <- gets bits ;;
  match nth_error bs i with
  | Some b => ret b
  | None => raise IndexError
  end.

Definition handle_data_wire2 (p : pins) : M unit :=
  let '(clk, dio, stb) := p in
  push_bit dio ;;
  bc <- gets bitcount ;;
  when (0 <? bc) (
    close_previous_bit ;;
    when (bc <=? 8) (
      b1 <- bits_at 1 ;;
      put (out_ann (bit_ss b1) (bit_es b1) BIT [PyStr.str_int (bit_val b1)]))) ;;
  modify (fun d => set_bitcount (bitcount d + 1) d) ;;
  bc <- gets bitcount ;;
  if bc <=? 8 then
    modify (fun d => set_databyte (Z.shiftr (databyte d) 1) d) ;;
    modify (fun d => set_databyte (Z.lor (databyte d) (Z.shiftl dio 7)) d)
  else
    n <- gets samplenum ;;
    sb <- gets ss_byte ;;
    modify (set_ss sb) ;; modify (set_es n) ;;
    byc <- gets bytecount ;;
    let cmd := if byc =? 0 then COMMAND else DATA in
    modify (fun d => set_bits (last_n 8 (bits d)) d) ;;
    modify (fun d => set_bits (rev (bits d)) d) ;;
    bs <- gets bits ;;
    putp (commands BIT) (PBits bs) ;;
    db <- gets databyte ;;
    putp (commands cmd) (PByte db) ;;
    raw <- lift (py_bytes1 db) ;;
    putb AnnBinary_DATA raw ;;
    r <- gets radix ;;
    let annots :=
      compose_annot (ArgList (protocol cmd)) (ArgStr (format_data db r))
                    ArgNone ArgNone in
    putx cmd annots ;;
    clear_data ;;
    modify (set_ss_ack n) ;;
    modify (fun d => set_bytecount (bytecount d + 1) d) ;;
    modify (set_state FIND_ACK).

Definition handle_ack (p : pins) : M unit :=
  let '(clk, dio, stb) := p in
  sa <- gets ss_ack ;;
  n <- gets samplenum ;;
  modify (set_ss sa) ;; modify (set_es n) ;;
  cmd <- lift (pair_index ACK NACK dio) ;;
  putp (commands cmd) PNone ;;
  putx cmd (protocol cmd) ;;
  modify (set_state FIND_DATA).

Definition handle_stop_wire2 : M unit :=
  handle_bitrate ;;
  let cmd := STOP in
  n <- gets samplenum ;;
  modify (set_ss n) ;; modify (set_es n) ;;
  putp (commands cmd) PNone ;;
  putx cmd (protocol cmd) ;;
  clear_data ;;
  modify (set_state FIND_START).

Definition handle_byte_wire3 : M unit :=
  bs <- gets bits ;;
  match bs with
  | [] => ret tt
  | b0 :: rest =>
      n <- gets samplenum ;;
      modify (set_bits (Bit (bit_val b0) (bit_ss b0) n :: rest)) ;;
      bs <- gets bits ;;
      for_each bs (fun b =>
        put (out_ann (bit_ss b) (bit_es b) BIT [PyStr.str_int (bit_val b)])) ;;
      sb <- gets ss_byte ;;
      modify (set_ss sb) ;; modify (set_es n) ;;
      byc <- gets bytecount ;;
      let cmd := if byc =? 0 then COMMAND else DATA in
      modify (fun d => set_bits (rev (bits d)) d) ;;
      bs <- gets bits ;;
      putp (commands BIT) (PBits bs) ;;
      db <- gets databyte ;;
      putp (commands cmd) (PByte db) ;;
      raw <- lift (py_bytes1 db) ;;
      putb AnnBinary_DATA raw ;;
      r <- gets radix ;;
      let annots :=
        compose_annot (ArgList (protocol cmd)) (ArgStr (format_data db r))
                      ArgNone ArgNone in
      putx cmd annots ;;
      modify (fun d => set_bytecount (bytecount d + 1) d)
  end.

Definition handle_data_wire3 (p : pins) : M unit :=
  let '(clk, dio, stb) := p in
  bc <- gets bitcount ;;
  when (8 <=? bc) (
    handle_byte_wire3 ;;
    clear_data ;;
    n <- gets samplenum ;;
    modify (set_ss_byte n)) ;;
  push_bit dio ;;
  modify (fun d => set_databyte (Z.shiftr (databyte d) 1) d) ;;
  modify (fun d => set_databyte (Z.lor (databyte d) (Z.shiftl dio 7)) d) ;;
  bc <- gets bitcount ;;
  when (0 <? bc) close_previous_bit ;;
  modify (fun d => set_bitcount (bitcount d + 1) d).

Definition handle_stop_wire3 : M unit :=
  handle_bitrate ;;
  handle_byte_wire3 ;;
  let cmd := STOP in
  n <- gets samplenum ;;
  modify (set_ss n) ;; modify (set_es n) ;;
  putp (commands cmd) PNone ;;
  putx cmd (protocol cmd) ;;
  clear_data ;;
  modify (set_state FIND_START).

(** [getattr(self, "handle_data_{}".format(self.bustype))(pins)]. *)
Definition handle_data (p : pins) : M unit :=
  modify (fun d => set_pdu_bits (pdu_bits d + 1) d) ;;
  bc <- gets bitcount ;;
  when (bc =? 0) (n <- gets samplenum ;; modify (set_ss_byte n)) ;;
  bt <- gets bustype ;;
  match bt with
  | Some wire2 => handle_data_wire2 p
  | Some wire3 => handle_data_wire3 p
  | None => raise AttributeError
  end.

Definition handle_stop : M unit :=
  bt <- gets bustype ;;
  match bt with
  | Some wire2 => handle_stop_wire2
  | Some wire3 => handle_stop_wire3
  | None => raise AttributeError
  end.

(* ###################################################################### *)
(** * The host: samples and [wait] *)

(** The logic levels of the three channels at one sample. *)
Record sample := Sample { s_clk : bool; s_dio : bool; s_stb : bool }.

(** What the host knows besides the samples: which channels are
    connected ([has_channel]). *)
Record host := Host { has_clk : bool; has_dio : bool; has_stb : bool }.

Definition has_channel (h : host) (ch : channel) : bool :=
  match ch with
  | CLK => has_clk h
  | DIO => has_dio h
  | STB => has_stb h
  end.

Definition level (s : sample) (ch : channel) : bool :=
  match ch with
  | CLK => s_clk s
  | DIO => s_dio s
  | STB => s_stb s
  end.

(** The terms of a wait condition: ['l'], ['h'], ['r'], ['f']. *)
Inductive term := Low | High | Rising | Falling.

(** A wait condition: the dictionary from channels to terms. *)
Definition cond : Type := list (channel * term).

(** Modelled from the spec: the host's matching of one term of a wait
    condition at a sample, given the sample before it.  A term on a
    channel that is not connected never matches. *)
Definition term_matches (h : host) (prev cur : sample) (ct : channel * term)
  : bool :=
  let (ch, t) := ct in
  has_channel h ch &&
  match t with
  | Low => negb (level cur ch)
  | High => level cur ch
  | Rising => negb (level prev ch) && level cur ch
  | Falling => level prev ch && negb (level cur ch)
  end.

(** Modelled from the spec: a condition matches when all its terms do. *)
Definition cond_matches (h : host) (prev cur : sample) (c : cond) : bool :=
  forallb (term_matches h prev cur) c.

(** Modelled from the spec: the pin values handed to the decoder; the
    pin of a channel that is not connected reads 255. *)
Definition pins_of (h : host) (s : sample) : pins :=
  let pin ch := if has_channel h ch then Z.b2z (level s ch) else 255 in
  (pin CLK, pin DIO, pin STB).

(** The conditions that [decode] waits for in each state. *)
Definition wait_conds (st : dstate) : list cond :=
  match st with
  | FIND_START =>
      [ [(CLK, High); (STB, Falling)];
        [(CLK, Low); (STB, Falling)];
        [(CLK, High); (DIO, Falling)] ]
  | FIND_DATA =>
      [ [(STB, Rising)];
        [(CLK, High); (DIO, Rising)];
        [(CLK, Rising)] ]
  | FIND_ACK =>
      [ [(CLK, Falling)] ]
  | FIND_STOP =>
      [ [(STB, Rising)];
        [(CLK, High); (DIO, Rising)] ]
  end.

(** The body of the [while True] loop of [decode] once [wait] has
    returned [p], with [self.samplenum] and [self.matched] set. *)
Definition loop_body (p : pins) : M unit :=
  st <- gets state ;;
  match st with
  | FIND_START =>
      m0 <- matched_at 0 ;;
      m1 <- (if m0 then ret true else matched_at 1) ;;
      if m1 then
        modify (set_bustype (Some wire3)) ;;
        handle_start p
      else
        m2 <- matched_at 2 ;;
        when m2 (
          modify (set_bustype (Some wire2)) ;;
          handle_start p)
  | FIND_DATA =>
      m0 <- matched_at 0 ;;
      m1 <- (if m0 then ret true else matched_at 1) ;;
      if m1 then handle_stop
      else
        m2 <- matched_at 2 ;;
        when m2 (handle_data p)
  | FIND_ACK =>
      handle_ack p
  | FIND_STOP =>
      m0 <- matched_at 0 ;;
      m1 <- (if m0 then ret true else matched_at 1) ;;
      when m1 handle_stop
  end.

(** One return of [wait]: the number of the sample it stopped at, which
    conditions matched there, and the pins. *)
Record wait_result := Wait {
  w_samplenum : Z;
  w_matched : list bool;
  w_pins : pins
}.

(** One turn of the loop: [wait] returns [w], which sets
    [self.samplenum] and [self.matched], and the body runs. *)
Definition on_wait (w : wait_result) : M unit :=
  modify (set_samplenum (w_samplenum w)) ;;
  modify (set_matched (w_matched w)) ;;
  loop_body (w_pins w).

(** The loop fed with the successive returns of [wait]. *)
Definition run (ws : list wait_result) : M unit := for_each ws on_wait.

(** The loop of [decode] over the samples that remain: [wait] skips
    the samples at which no condition of the current state matches, and
    the decoder's thread ends with the samples.  [prev] is the sample
    before the head of [rest], which has number [n]. *)
Fixpoint decode_loop (h : host) (prev : sample) (n : Z) (rest : list sample)
  : M unit :=
  match rest with
  | [] => ret tt
  | cur :: rest' =>
      st <- gets state ;;
      let m := map (cond_matches h prev cur) (wait_conds st) in
      when (existsb (fun b => b) m) (on_wait (Wait n m (pins_of h cur))) ;;
      decode_loop h cur (n + 1) rest'
  end.

(** [not self.samplerate]. *)
Definition samplerate_falsy (sr : option Z) : bool :=
  match sr with
  | None => true
  | Some z => z =? 0
  end.

(** [decode(self)] on the samples of a capture.  The first sample has
    number 0 and no edge. *)
Definition decode (h : host) (samples : list sample) : M unit :=
  sr <- gets samplerate ;;
  if samplerate_falsy sr then raise SamplerateError
  else
    let has_pin := map (has_channel h) [CLK; DIO] in
    if negb (forallb (fun b => b) has_pin) then raise ChannelError
    else
      match samples with
      | [] => ret tt
      | s0 :: _ => decode_loop h s0 0 samples
      end.

(** A decoder as the host creates it: [__init__], then [metadata] with
    the sample rate when the host knows one. *)
Definition new_decoder (rate : option Z) (radix : string) : decoder :=
  let d := reset (mkDecoder 0 0 0 0 None None 0 None 0 0 0 [] FIND_START 0 []
                            radix) in
  match rate with
  | Some r => metadata SRD_CONF_SAMPLERATE r d
  | None => d
  end.

(* ###################################################################### *)
(** * The annotation definitions of the class [Decoder] *)

(** [l.insert(i, x)]: a negative index counts from the end, and an
    index beyond either end is brought back to it. *)
Definition py_insert {A} (i : Z) (x : A) (l : list A) : list A :=
  let n := Z.of_nat (List.length l) in
  let i := if i <? 0 then Z.max (i + n) 0 else Z.min i n in
  firstn (Z.to_nat i) l ++ x :: skipn (Z.to_nat i) l.

(** A dictionary of annotation definitions, in the order of its
    items: the index of each definition and its list of labels. *)
Definition ann_dict : Type := list (Z * list string).

(** The inner loop of [create_annots], over the items of one
    dictionary of definitions. *)
Fixpoint add_annots (prefix : string) (ann_def : ann_dict)
         (annots : list (string * string))
  : outcome (list (string * string)) :=
  match ann_def with
  | [] => Ok annots
  | (ann_idx, ann_list) :: ann_def' =>
      match ann_list with
      | [] => Raise IndexError
      | first :: _ =>
          add_annots prefix ann_def'
            (py_insert ann_idx
               ((prefix ++ "-" ++ PyStr.lower first)%string, first) annots)
      end
  end.

(** The outer loop of [create_annots], over the prefixes. *)
Fixpoint create_annots_loop (annots_dict : list (string * ann_dict))
         (annots : list (string * string))
  : outcome (list (string * string)) :=
  match annots_dict with
  | [] => Ok annots
  | (prefix, ann_def) :: annots_dict' =>
      match add_annots prefix ann_def annots with
      | Ok annots' => create_annots_loop annots_dict' annots'
      | Raise e => Raise e
      end
  end.

(** [create_annots(annots_dict)]. *)
Definition create_annots (annots_dict : list (string * ann_dict))
  : outcome (list (string * string)) :=
  create_annots_loop annots_dict [].

(** The members of [AnnProtocol] as numbers: [range(7)]. *)
Definition AnnProtocol_index (cmd : AnnProtocol) : Z :=
  match cmd with
  | START => 0
  | STOP => 1
  | ACK => 2
  | NACK => 3
  | COMMAND => 4
  | DATA => 5
  | BIT => 6
  end.

(** [class AnnInfo]. *)
Definition AnnInfo_WARN : Z := AnnProtocol_index BIT + 1.

(** The dictionaries [protocol], [info] and [binary] with their keys,
    in the order of the source. *)
Definition protocol_items : ann_dict :=
  map (fun cmd => (AnnProtocol_index cmd, protocol cmd))
      [START; STOP; ACK; NACK; COMMAND; DATA; BIT].

Definition info_items : ann_dict :=
  [(AnnInfo_WARN, ["Warnings"; "Warn"; "W"])].

Definition binary_items : ann_dict :=
  [(AnnBinary_DATA, ["Data"; "D"])].

(** The class attributes [annotations] and [binary]. *)
Definition annotations : outcome (list (string * string)) :=
  create_annots [("prot", protocol_items); ("info", info_items)].

Definition binary : outcome (list (string * string)) :=
  create_annots [("data", binary_items)].

(* ###################################################################### *)
(** * Definitions used in the statements *)

(** A positive normal binary64 number: a mantissa of 53 digits and an
    exponent within [[lo, hi]]. *)
Definition normal (x : spec_float) (lo hi : Z) : Prop :=
  exists m e,
    x = S754_finite false m e /\ Zpos (digits2_pos m) = 53 /\ lo <= e <= hi.

(** The timing attributes are those of a capture: a sample rate and
    sample numbers that fit 64 bits, the stop after the start. *)
Definition timing_in_range (d : decoder) : Prop :=
  exists rate start,
    samplerate d = Some rate /\ pdu_start d = Some start /\
    0 < rate < 2 ^ 64 /\
    0 <= start < samplenum d /\ samplenum d < 2 ^ 64 /\
    0 <= pdu_bits d < 2 ^ 64.

(** The bit rate as the specification words it: the integer part of
    [pdu_bit_count / elapsed], where
    [elapsed = (current_sample - pdu_start_sample - 1) / sample_rate],
    in exact arithmetic. *)
Definition spec_bitrate (rate start current bit_count : Z) : Z :=
  Z.quot (bit_count * rate) (current - start - 1).

(** The same formula evaluated in binary64 arithmetic. *)
Definition spec_bitrate_float (rate start current bit_count : Z)
  : outcome Z :=
  match PyFloat.of_int (current - start - 1), PyFloat.of_int rate,
        PyFloat.of_int bit_count with
  | Ok n, Ok r, Ok b =>
      PyFloat.to_int
        (SFdiv PyFloat.prec PyFloat.emax b
               (SFdiv PyFloat.prec PyFloat.emax n r))
  | _, _, _ => Raise OverflowError
  end.

(** The byte whose least significant bit is [b0]:
    [b0 | b1<<1 | ... | b7<<7]. *)
Definition lsb_first (b0 b1 b2 b3 b4 b5 b6 b7 : bool) : Z :=
  Z.lor (Z.b2z b0)
    (Z.lor (Z.shiftl (Z.b2z b1) 1)
      (Z.lor (Z.shiftl (Z.b2z b2) 2)
        (Z.lor (Z.shiftl (Z.b2z b3) 3)
          (Z.lor (Z.shiftl (Z.b2z b4) 4)
            (Z.lor (Z.shiftl (Z.b2z b5) 5)
              (Z.lor (Z.shiftl (Z.b2z b6) 6)
                     (Z.shiftl (Z.b2z b7) 7))))))).

(** A byte in radix Hex: the prefix and two hexadecimal digits. *)
Definition hex_byte (data : Z) : string :=
  String "0" (String "x"
    (String (PyStr.digit_char (data / 16))
      (String (PyStr.digit_char (data mod 16)) EmptyString))).

(** The text of the annotation of a bit. *)
Definition bit_text (b : bool) : list string := [PyStr.str_int (Z.b2z b)].

(** A data handler called at sample [n]. *)
Definition at_sample (n : Z) (m : M unit) : M unit :=
  modify (set_samplenum n) ;; m.

(** A data handler called on successive clock edges, each given by its
    sample number and the level of the data line. *)
Definition feed_bits (handler : pins -> M unit) (clk stb : Z)
           (edges : list (Z * bool)) : M unit :=
  for_each edges (fun e => at_sample (fst e) (handler (clk, Z.b2z (snd e), stb))).

(** The returns of [wait] for the events of a three-wire session: the
    strobe falling while the clock is high or low (the data line may
    fall at the same sample), a clock rising edge with the data line at
    [dio], and the strobe rising (whatever else matches there). *)
Definition strobe_falls (n : Z) (clk_high dio_falls : bool) (p : pins)
  : wait_result :=
  Wait n [clk_high; negb clk_high; clk_high && dio_falls] p.

Definition clock_rises (n : Z) (clk : Z) (dio : bool) (stb : Z)
  : wait_result :=
  Wait n [false; false; true] (clk, Z.b2z dio, stb).

Definition strobe_rises (n : Z) (m1 m2 : bool) (p : pins) : wait_result :=
  Wait n [true; m1; m2] p.

(** A byte event: a packet of the Python output that carries a byte. *)
Definition is_byte_event (o : output) : bool :=
  match o with
  | out_python _ _ _ (PByte _) => true
  | _ => false
  end.

(** A per-bit annotation. *)
Definition is_bit_annotation (o : output) : bool :=
  match o with
  | out_ann _ _ BIT _ => true
  | _ => false
  end.

(** A bit rate metric. *)
Definition is_metric (o : output) : bool :=
  match o with
  | out_bitrate _ _ _ => true
  | _ => false
  end.

(** A COMMAND, DATA or BITS packet. *)
Definition is_data_packet (o : output) : bool :=
  match o with
  | out_python _ _ _ (PByte _) => true
  | out_python _ _ _ (PBits _) => true
  | out_binary _ _ _ _ => true
  | out_ann _ _ (COMMAND | DATA | BIT) _ => true
  | _ => false
  end.

(** The number of byte events since the last START packet, along a log
    of outputs that begins when [count] bytes have been seen. *)
Fixpoint byte_counter (count : Z) (log : list output) : Z :=
  match log with
  | [] => count
  | out_python _ _ ptype PNone :: log' =>
      byte_counter (if (ptype =? "START")%string then 0 else count) log'
  | out_python _ _ _ (PByte _) :: log' => byte_counter (count + 1) log'
  | _ :: log' => byte_counter count log'
  end.

(** Every byte event of the log is a COMMAND when it is the first
    since the last START, and a DATA otherwise. *)
Fixpoint classified (count : Z) (log : list output) : bool :=
  match log with
  | [] => true
  | out_python _ _ ptype PNone :: log' =>
      classified (if (ptype =? "START")%string then 0 else count) log'
  | out_python _ _ ptype (PByte _) :: log' =>
      String.eqb ptype (if count =? 0 then "COMMAND" else "DATA") &&
      classified (count + 1) log'
  | _ :: log' => classified count log'
  end.

(** An output that is neither a START packet nor a byte event. *)
Definition neutral (o : output) : Prop :=
  forall c, byte_counter c [o] = c /\ classified c [o] = true.

(** A method keeps [self.bytecount] equal to the number of byte events
    since the last START, and classifies the bytes it emits. *)
Definition tracks_bytes {A} (m : M A) : Prop :=
  forall d o r,
    m d = (r, o) ->
    classified (bytecount d) o = true /\
    forall a d', r = Ok (a, d') ->
                 bytecount d' = byte_counter (bytecount d) o.

(** A method keeps the invariant [P] of the decoder when it returns,
    and raises only exceptions in [E]. *)
Definition keeps (P : decoder -> Prop) (E : exn -> Prop) {A} (m : M A)
  : Prop :=
  forall d,
    P d ->
    match fst (m d) with
    | Ok (_, d') => P d'
    | Raise e => E e
    end.

(** The exceptions other than those of the checks of [decode]. *)
Definition not_a_precondition_error (e : exn) : Prop :=
  e <> SamplerateError /\ e <> ChannelError.

(** The exceptions other than a division by zero. *)
Definition not_a_zero_division (e : exn) : Prop :=
  e <> ZeroDivisionError.

(** [self.samplerate] is true: decoding has passed the first check. *)
Definition samplerate_truthy (d : decoder) : Prop :=
  samplerate_falsy (samplerate d) = false.

(** The two-wire scenario of the specification, as a capture: clock
    high and data falling at sample 10; eight clock pulses rising at
    20, 30, ..., 90 with the data bits 1,0,1,1,0,0,0,0 set up while the
    clock is low; the clock falling at 95 with the data low; the clock
    back high together with the data rising at 200. *)
Definition scenario_bits : list bool :=
  [true; false; true; true; false; false; false; false].

Definition scenario_dio (i : Z) : bool :=
  if i <? 10 then true
  else if i <? 15 then false
  else if i <? 95 then nth (Z.to_nat ((i - 15) / 10)) scenario_bits false
  else if i <? 200 then false
  else true.

Definition scenario_clk (i : Z) : bool :=
  if i <? 15 then true
  else if i <? 95 then i mod 10 <? 5
  else if i <? 200 then false
  else true.

Definition capture (clk dio : Z -> bool) (len : nat) : list sample :=
  map (fun k => let i := Z.of_nat k in Sample (clk i) (dio i) false)
      (seq 0 len).

Definition scenario : list sample := capture scenario_clk scenario_dio 210.

(** The same capture with the ninth clock pulse, which the chip answers
    with its acknowledge: after the eighth edge at 90 the clock is low
    from 91, rises again at [ninth] and falls at 95; it is back high at
    [back]. *)
Definition scenario_ack_clk (ninth back : Z) (i : Z) : bool :=
  if i <? 15 then true
  else if i <? 91 then i mod 10 <? 5
  else if i <? ninth then false
  else if i <? 95 then true
  else if i <? back then false
  else true.

Definition scenario_ack (ninth back : Z) : list sample :=
  capture (scenario_ack_clk ninth back) scenario_dio 210.

(** A two-wire bus: clock and data connected, no strobe. *)
Definition two_wire_host : host := Host true true false.

(** The decoder of the scenario when the two-wire data handler is
    called for the second clock edge, at sample 30: the first bit is in
    the buffer. *)
Definition second_edge_state : decoder :=
  mkDecoder 10 10 20 (-1) (Some 1000000) (Some 10) 2 (Some wire2) 0 1 128
            [Bit 1 20 20] FIND_DATA 30 [false; false; true] "Hex".

(** The decoder of the scenario when the stop handler is called at
    sample 200 after eight clock edges. *)
Definition stop_state : decoder :=
  mkDecoder 10 10 20 (-1) (Some 1000000) (Some 10) 8 (Some wire2) 0 8 13
            [Bit 0 90 90; Bit 0 80 90; Bit 0 70 80; Bit 0 60 70;
             Bit 1 50 60; Bit 1 40 50; Bit 0 30 40; Bit 1 20 30]
            FIND_DATA 200 [false; true; true] "Hex".

(** The decoder at a stop at sample [current] of a session started at
    sample [start] in which [bit_count] clock edges were seen, the byte
    in progress having started at [first]. *)
Definition at_stop (rate start first current bit_count : Z) : decoder :=
  mkDecoder start start first (-1) (Some rate) (Some start) bit_count
            (Some wire3) 0 0 0 [] FIND_DATA current [true; false; false]
            "Hex".

(** The example of the specification: 80 bits in 1000 sample periods
    at 1 MHz. *)
Definition bitrate_example_state : decoder := at_stop 1000000 0 1 1001 80.

(** 29 bits in 58 sample periods at 1 MHz: 500000 bits per second. *)
Definition bitrate_rounding_state : decoder := at_stop 1000000 0 1 59 29.

(** A three-wire capture with that timing: the strobe falls at sample
    1 and rises at sample 60, and the clock rises at the 29 even samples
    from 2 to 58; the data line stays low. *)
Definition rounding_capture : list sample :=
  map (fun k =>
         let i := Z.of_nat k in
         Sample ((2 <=? i) && (i <? 60) && Z.even i) false
                ((i <? 1) || (60 <=? i)))
      (seq 0 62).

(** A three-wire bus: clock, data and strobe connected. *)
Definition three_wire_host : host := Host true true true.

(** The scenario with the clock back high at sample 150, before the
    data rises at 200. *)
Definition scenario_late_clk (i : Z) : bool :=
  if i <? 15 then true
  else if i <? 95 then i mod 10 <? 5
  else if i <? 150 then false
  else true.

Definition scenario_late : list sample :=
  capture scenario_late_clk scenario_dio 210.

(** The decoder that the host starts on the scenario: sample rate
    1 MHz, radix Hex. *)
Definition scenario_decoder : decoder := new_decoder (Some 1000000) "Hex".

(* ###################################################################### *)
(** * Definitions used in the statements on the helpers *)

(** The items of a dictionary of dictionaries of annotation
    definitions, in the order in which [create_annots] visits them. *)
Definition annot_items (annots_dict : list (string * ann_dict))
  : list (string * Z * list string) :=
  flat_map (fun pd => map (fun kv => (fst pd, fst kv, snd kv)) (snd pd))
           annots_dict.

(** The annotation that [create_annots] makes of an item: its name
    and its description. *)
Definition annot_of (item : string * Z * list string) : string * string :=
  let '(prefix, _, ann_list) := item in
  ((prefix ++ "-" ++ PyStr.lower (hd EmptyString ann_list))%string,
   hd EmptyString ann_list).

(** No index is smaller than the number of items before it. *)
Definition indexes_ascend (items : list (string * Z * list string)) : Prop :=
  forall i item,
    nth_error items i = Some item -> Z.of_nat i <= snd (fst item).

(** The indexes are 0, 1, 2, ... in this order. *)
Definition indexes_count (items : list (string * Z * list string)) : Prop :=
  forall i item,
    nth_error items i = Some item -> snd (fst item) = Z.of_nat i.

(** A list of texts from the longest to the shortest. *)
Fixpoint longest_first (l : list string) : Prop :=
  match l with
  | [] => True
  | x :: l' =>
      (forall y, In y l' -> (String.length y <= String.length x)%nat) /\
      longest_first l'
  end.

(** The text of an annotation with a value: the label, when there is
    one, then the value. *)
Definition labelled (act lbl val : string) : string :=
  let ann := PyStr.strip (act ++ " " ++ lbl)%string in
  if (0 <? String.length ann)%nat then (ann ++ ": " ++ val)%string else val.

(** The value of a digit, and of a string of digits read from the most
    significant one. *)
Definition digit_value (c : ascii) : Z :=
  let k := Z.of_N (N_of_ascii c) in
  if k <? 58 then k - 48 else k - 87.

Fixpoint read_digits (base acc : Z) (s : string) : Z :=
  match s with
  | EmptyString => acc
  | String c s' => read_digits base (acc * base + digit_value c) s'
  end.

Fixpoint drop (n : nat) (s : string) : string :=
  match n, s with
  | S n', String _ s' => drop n' s'
  | _, _ => s
  end.

(** Reading back a number written in a base after a prefix of a
    given length: the sign, the prefix, the digits. *)
Definition read_number (base : Z) (prefix : nat) (s : string) : Z :=
  match s with
  | String "-" s' => - read_digits base 0 (drop prefix s')
  | _ => read_digits base 0 (drop prefix s)
  end.

(** Reading back a number formatted in a radix. *)
Definition read_data (s radix : string) : Z :=
  let radix := PyStr.upper radix in
  if (radix =? "DEC")%string then read_number 10 0 s
  else if (radix =? "BIN")%string then read_number 2 2 s
  else if (radix =? "OCT")%string then read_number 8 2 s
  else read_number 16 2 s.

(* ###################################################################### *)
(** * Facts about binary64 arithmetic

    The operations of [SpecFloat] round through [binary_round_aux].  For
    the magnitudes that a capture can produce no operation leaves the
    normal numbers, so that no infinity, NaN or zero appears where the
    decoder divides or converts. *)

Module FloatFacts.
Import PyFloat.

Lemma digits2_pos_size (p : positive) : digits2_pos p = Pos.size p.
Proof. induction p; simpl; congruence. Qed.

Lemma digits2_bounds (p : positive) :
  2 ^ (Zpos (digits2_pos p) - 1) <= Zpos p < 2 ^ Zpos (digits2_pos p).
Proof.
  rewrite digits2_pos_size.
  pose proof (Pos.size_gt p) as Hgt. pose proof (Pos.size_le p) as Hle.
  assert (Zpos (2 ^ Pos.size p) = 2 * 2 ^ (Zpos (Pos.size p) - 1)) as Hpow.
  { rewrite Pos2Z.inj_pow, <- Z.pow_succ_r by lia. f_equal. lia. }
  split.
  - apply Pos2Z.pos_le_pos in Hle. lia.
  - apply Pos2Z.pos_lt_pos in Hgt. now rewrite Pos2Z.inj_pow in Hgt.
Qed.

Lemma digits2_unique (p : positive) (n : Z) :
  2 ^ (n - 1) <= Zpos p < 2 ^ n -> Zpos (digits2_pos p) = n.
Proof.
  intros [Hlo Hhi]. destruct (digits2_bounds p) as [Hlo' Hhi'].
  assert (0 <= n) as Hn.
  { destruct (Z.lt_ge_cases n 0) as [Hneg|]; [|assumption].
    rewrite Z.pow_neg_r in Hhi by assumption. lia. }
  assert (n - 1 < Zpos (digits2_pos p)) as H1.
  { apply (Z.pow_lt_mono_r_iff 2); [lia | lia | lia]. }
  assert (Zpos (digits2_pos p) - 1 < n) as H2.
  { apply (Z.pow_lt_mono_r_iff 2); [lia | lia | lia]. }
  lia.
Qed.

Lemma iter_pos_nat {A : Type} (f : A -> A) (p : positive) (x : A) :
  iter_pos f p x = Nat.iter (Pos.to_nat p) f x.
Proof.
  revert x. induction p as [p IH | p IH |]; intros x; cbn [iter_pos].
  - rewrite !IH, Pos2Nat.inj_xI, <- Nat.iter_add, <- Nat.iter_succ_r.
    f_equal. lia.
  - rewrite !IH, Pos2Nat.inj_xO, <- Nat.iter_add.
    f_equal. lia.
  - reflexivity.
Qed.

Lemma shr_1_m (r : shr_record) :
  0 <= shr_m r -> shr_m (shr_1 r) = shr_m r / 2.
Proof.
  destruct r as [m r s]; simpl. intros Hm.
  destruct m as [| [p | p |] | p]; cbn [shr_m]; try reflexivity.
  - apply Z.div_unique with 1; lia.
  - apply Z.div_unique with 0; lia.
  - lia.
Qed.

Lemma shr_iter_m (n : nat) (r : shr_record) :
  0 <= shr_m r ->
  shr_m (Nat.iter n shr_1 r) = shr_m r / 2 ^ Z.of_nat n.
Proof.
  intros Hm. induction n as [| n IH].
  - simpl. now rewrite Z.div_1_r.
  - assert (0 < 2 ^ Z.of_nat n) as Hpow by (apply Z.pow_pos_nonneg; lia).
    rewrite Nat2Z.inj_succ, Z.pow_succ_r by lia.
    change (Nat.iter (S n) shr_1 r) with (shr_1 (Nat.iter n shr_1 r)).
    rewrite shr_1_m.
    + rewrite IH, Z.div_div by lia. f_equal. lia.
    + rewrite IH. apply Z.div_pos; lia.
Qed.

Lemma shr_spec (r : shr_record) (e n : Z) :
  0 <= shr_m r -> 0 <= n ->
  exists r',
    shr r e n = (r', e + n) /\ shr_m r' = shr_m r / 2 ^ n /\
    (n = 0 -> r' = r).
Proof.
  intros Hm Hn. destruct n as [| p | p]; [| | lia].
  - exists r. cbn [shr]. rewrite Z.add_0_r, Z.pow_0_r, Z.div_1_r. auto.
  - exists (iter_pos shr_1 p r). cbn [shr]. split; [reflexivity|].
    split; [| discriminate].
    rewrite iter_pos_nat, shr_iter_m, positive_nat_Z by assumption.
    reflexivity.
Qed.

Lemma shr_record_of_loc_m (m : Z) (l : location) :
  shr_m (shr_record_of_loc m l) = m.
Proof. destruct l as [| []]; reflexivity. Qed.

Lemma round_nearest_even_cases (m : Z) (l : location) :
  round_nearest_even m l = m \/ round_nearest_even m l = m + 1.
Proof.
  destruct l as [| []]; cbn [round_nearest_even]; auto.
  destruct (Z.even m); auto.
Qed.

Lemma fexp_normal (x : Z) :
  -1074 <= x - 53 -> fexp prec emax x = x - 53.
Proof. unfold fexp, emin, prec, emax. lia. Qed.

(** Rounding a mantissa of at least 53 digits whose exponent is not
    below the normal range: the result has a 53-digit mantissa, or is
    an infinity when the exponent is too large; never zero, never NaN.
    Its mantissa is that of the argument with the digits beyond the
    53rd dropped, or the next one; nothing changes when there is no
    digit to drop and the argument is exact. *)
Lemma binary_round_aux_normal (sx : bool) (mx : positive) (ex : Z)
      (lx : location) :
  let d := Zpos (digits2_pos mx) in
  53 <= d -> -1074 <= d + ex - 53 ->
  exists m e,
    Zpos (digits2_pos m) = 53 /\
    (e = d + ex - 53 \/ e = d + ex - 52) /\
    binary_round_aux prec emax sx (Zpos mx) ex lx =
      (if e <=? 971 then S754_finite sx m e else S754_infinity sx) /\
    (Zpos m * 2 ^ (e - (d + ex - 53)) = Zpos mx / 2 ^ (d - 53) \/
     Zpos m * 2 ^ (e - (d + ex - 53)) = Zpos mx / 2 ^ (d - 53) + 1) /\
    (lx = loc_Exact -> d = 53 -> m = mx /\ e = ex).
Proof.
  intros d Hd He.
  destruct (digits2_bounds mx) as [Hlo Hhi]. fold d in Hlo, Hhi.
  unfold binary_round_aux, shr_fexp.
  cbn [Zdigits2]. fold d.
  rewrite fexp_normal by lia.
  destruct (shr_spec (shr_record_of_loc (Zpos mx) lx) ex (d + ex - 53 - ex))
    as (r1 & Hshr1 & Hm1 & Hsame).
  { rewrite shr_record_of_loc_m. lia. }
  { lia. }
  rewrite Hshr1. rewrite shr_record_of_loc_m in Hm1.
  replace (d + ex - 53 - ex) with (d - 53) in * by lia.
  set (e1 := ex + (d - 53)).
  assert (2 ^ 52 <= shr_m r1 < 2 ^ 53) as Hr1.
  { rewrite Hm1.
    assert (0 < 2 ^ (d - 53)) by (apply Z.pow_pos_nonneg; lia).
    assert (2 ^ (d - 1) = 2 ^ (d - 53) * 2 ^ 52) as E1.
    { rewrite <- Z.pow_add_r by lia. f_equal. lia. }
    assert (2 ^ d = 2 ^ (d - 53) * 2 ^ 53) as E2.
    { rewrite <- Z.pow_add_r by lia. f_equal. lia. }
    split.
    - apply Z.div_le_lower_bound; lia.
    - apply Z.div_lt_upper_bound; lia. }
  set (m2 := round_nearest_even (shr_m r1) (loc_of_shr_record r1)).
  assert (m2 = shr_m r1 \/ m2 = shr_m r1 + 1) as Hround
      by apply round_nearest_even_cases.
  assert (lx = loc_Exact -> d = 53 -> m2 = Zpos mx) as Hexact.
  { intros -> Hd53. subst m2. rewrite Hsame by lia. reflexivity. }
  assert (2 ^ 52 <= m2 < 2 ^ 53 \/ m2 = 2 ^ 53) as Hm2 by lia.
  destruct Hm2 as [Hm2 | Hm2].
  - destruct m2 as [| p2 | p2] eqn:E2; [lia | | lia].
    cbn [Zdigits2]. rewrite (digits2_unique p2 53) by (simpl; lia).
    rewrite fexp_normal by (subst e1; lia).
    replace (53 + e1 - 53 - e1) with 0 by lia.
    cbn [shr shr_record_of_loc shr_m].
    exists p2, e1. split; [apply digits2_unique; simpl; lia|].
    split; [left; subst e1; lia|].
    split; [unfold emax, prec; reflexivity|].
    split.
    + replace (e1 - (d + ex - 53)) with 0 by (subst e1; lia).
      rewrite Z.pow_0_r, Z.mul_1_r, <- Hm1. exact Hround.
    + intros Hlx Hd53. specialize (Hexact Hlx Hd53).
      split; [congruence | subst e1; lia].
  - rewrite Hm2.
    cbn [Zdigits2 Z.pow Z.pow_pos Pos.iter Z.mul Pos.mul digits2_pos
         Pos.succ].
    rewrite fexp_normal by (subst e1; lia).
    replace (54 + e1 - 53 - e1) with 1 by lia.
    cbn [shr shr_record_of_loc iter_pos shr_1 orb shr_m].
    exists (4503599627370496)%positive, (e1 + 1). split; [reflexivity|].
    split; [right; subst e1; lia|].
    split; [unfold emax, prec; reflexivity|].
    split.
    + replace (e1 + 1 - (d + ex - 53)) with 1 by (subst e1; lia).
      right. rewrite <- Hm1.
      replace (shr_m r1 + 1) with 9007199254740992; [reflexivity|].
      change (2 ^ 53) with 9007199254740992 in *.
      change (2 ^ 52) with 4503599627370496 in *. lia.
    + intros Hlx Hd53. specialize (Hexact Hlx Hd53). exfalso.
      assert (Z.pos mx < 2 ^ 53) by (rewrite <- Hd53; exact Hhi). lia.
Qed.

Lemma digits2_iter_xO (m : positive) (n : positive) :
  Zpos (digits2_pos (Pos.iter xO m n)) = Zpos (digits2_pos m) + Zpos n.
Proof.
  induction n as [| n IH] using Pos.peano_ind.
  - cbn [Pos.iter digits2_pos]. lia.
  - rewrite Pos.iter_succ. cbn [digits2_pos]. lia.
Qed.

(** [float(z)] for a non-zero integer: a normal number of the sign of
    [z], or an overflow; never zero. *)
Lemma of_int_nonzero (z : Z) :
  z <> 0 ->
  exists m e,
    Zpos (digits2_pos m) = 53 /\
    (e = Zdigits2 z - 53 \/ e = Zdigits2 z - 52) /\
    of_int z =
      if e <=? 971 then Ok (S754_finite (z <? 0) m e)
      else Raise OverflowError.
Proof.
  intros Hz.
  assert (forall s p,
    exists m e,
      Zpos (digits2_pos m) = 53 /\
      (e = Zpos (digits2_pos p) - 53 \/ e = Zpos (digits2_pos p) - 52) /\
      binary_round prec emax s p 0 =
        if e <=? 971 then S754_finite s m e else S754_infinity s) as Hround.
  { intros s p. unfold binary_round, shl_align.
    rewrite Z.add_0_r, fexp_normal by lia.
    rewrite Z.sub_0_r.
    destruct (Zpos (digits2_pos p) - 53) as [| k | k] eqn:Ek.
    - destruct (binary_round_aux_normal s p 0 loc_Exact) as (m & e & H1 & H2 & H3 & _);
        [lia | lia |].
      exists m, e. repeat split; [assumption | lia | assumption].
    - destruct (binary_round_aux_normal s p 0 loc_Exact) as (m & e & H1 & H2 & H3 & _);
        [lia | lia |].
      exists m, e. repeat split; [assumption | lia | assumption].
    - pose proof (digits2_iter_xO p k) as Hk.
      destruct (binary_round_aux_normal s (Pos.iter xO p k)
                  (Zpos (digits2_pos p) - 53) loc_Exact)
        as (m & e & H1 & H2 & H3 & _); [lia | lia |].
      rewrite <- Ek. exists m, e. repeat split; [assumption | lia | assumption]. }
  unfold of_int, binary_normalize.
  destruct z as [| p | p]; [congruence | |].
  - destruct (Hround false p) as (m & e & H1 & H2 & H3).
    exists m, e. rewrite H3. cbn [Zdigits2 Z.ltb Z.compare].
    repeat split; [assumption | assumption |]. now destruct (e <=? 971).
  - destruct (Hround true p) as (m & e & H1 & H2 & H3).
    exists m, e. rewrite H3. cbn [Zdigits2 Z.ltb Z.compare].
    repeat split; [assumption | assumption |]. now destruct (e <=? 971).
Qed.

Lemma Zdigits2_bound (z n : Z) :
  0 < z < 2 ^ n -> 1 <= Zdigits2 z <= n.
Proof.
  intros [Hlo Hhi]. destruct z as [| p | p]; try lia.
  cbn [Zdigits2]. split; [lia|].
  destruct (digits2_bounds p) as [Hp _].
  assert (0 <= n) as Hn.
  { destruct (Z.lt_ge_cases n 0) as [Hneg|]; [|assumption].
    rewrite Z.pow_neg_r in Hhi by assumption. lia. }
  assert (Zpos (digits2_pos p) - 1 < n); [|lia].
  apply (Z.pow_lt_mono_r_iff 2); lia.
Qed.

Lemma of_int_normal (z : Z) :
  0 < z < 2 ^ 64 ->
  exists x, of_int z = Ok x /\ normal x (-52) 12.
Proof.
  intros Hz. pose proof (Zdigits2_bound z 64 Hz) as Hd.
  destruct (of_int_nonzero z) as (m & e & H1 & H2 & H3); [lia|].
  replace (z <? 0) with false in H3 by (symmetry; apply Z.ltb_ge; lia).
  replace (e <=? 971) with true in H3 by (symmetry; apply Z.leb_le; lia).
  eexists. split; [eassumption|].
  exists m, e. repeat split; [assumption | lia | lia].
Qed.

Lemma div_normal (x y : spec_float) (a b c d : Z) :
  normal x a b -> normal y c d ->
  -1074 <= a - d - 53 -> b - c - 51 <= 971 ->
  exists q, div x y = Ok q /\ normal q (a - d - 53) (b - c - 51).
Proof.
  intros (m1 & e1 & -> & Hd1 & He1) (m2 & e2 & -> & Hd2 & He2) Hlo Hhi.
  unfold div. cbn [is_zero SFdiv xorb].
  unfold SFdiv_core_binary. cbn [Zdigits2].
  rewrite Hd1, Hd2.
  replace (53 + e1 - (53 + e2)) with (e1 - e2) by lia.
  rewrite fexp_normal by lia.
  rewrite Z.min_l by lia.
  replace (e1 - e2 - (e1 - e2 - 53)) with 53 by lia.
  cbv iota.
  destruct (digits2_bounds m1) as [Hm1lo Hm1hi].
  destruct (digits2_bounds m2) as [Hm2lo Hm2hi].
  rewrite Hd1 in Hm1lo, Hm1hi. rewrite Hd2 in Hm2lo, Hm2hi.
  change (53 - 1) with 52 in *.
  destruct (Z.div_eucl (Z.shiftl (Zpos m1) 53) (Zpos m2)) as [q r] eqn:Eqr.
  assert (q = Zpos m1 * 2 ^ 53 / Zpos m2) as Hq.
  { rewrite <- Z.shiftl_mul_pow2 by lia. unfold Z.div. now rewrite Eqr. }
  assert (2 ^ 52 <= q < 2 ^ 54) as Hqb.
  { rewrite Hq. split.
    - apply Z.div_le_lower_bound; [lia|].
      change (2 ^ 53) with (2 * 2 ^ 52). nia.
    - apply Z.div_lt_upper_bound; [lia|].
      change (2 ^ 54) with (2 ^ 53 * 2). change (2 ^ 53) with (2 * 2 ^ 52) in *.
      nia. }
  destruct q as [| pq | pq]; [simpl in Hqb; lia | | lia].
  assert (Zpos (digits2_pos pq) = 53 \/ Zpos (digits2_pos pq) = 54) as Hdq.
  { destruct (Z.lt_ge_cases (Zpos pq) (2 ^ 53)).
    - left. apply digits2_unique. change (53 - 1) with 52. lia.
    - right. apply digits2_unique. change (54 - 1) with 53. lia. }
  destruct (binary_round_aux_normal false pq (e1 - e2 - 53)
              (new_location (Zpos m2) r))
    as (m & e & H1 & H2 & H3 & _); [lia | lia |].
  rewrite H3.
  replace (e <=? 971) with true by (symmetry; apply Z.leb_le; lia).
  eexists. split; [reflexivity|].
  exists m, e. repeat split; [assumption | lia | lia].
Qed.

Lemma mul_normal (x y : spec_float) (a b c d : Z) :
  normal x a b -> normal y c d ->
  -1074 <= a + c + 52 -> b + d + 54 <= 971 ->
  normal (mul x y) (a + c + 52) (b + d + 54).
Proof.
  intros (m1 & e1 & -> & Hd1 & He1) (m2 & e2 & -> & Hd2 & He2) Hlo Hhi.
  unfold mul. cbn [SFmul xorb].
  destruct (digits2_bounds m1) as [Hm1lo Hm1hi].
  destruct (digits2_bounds m2) as [Hm2lo Hm2hi].
  rewrite Hd1 in Hm1lo, Hm1hi. rewrite Hd2 in Hm2lo, Hm2hi.
  change (53 - 1) with 52 in *.
  assert (2 ^ 104 <= Zpos (m1 * m2) < 2 ^ 106) as Hp.
  { rewrite Pos2Z.inj_mul.
    change (2 ^ 104) with (2 ^ 52 * 2 ^ 52).
    change (2 ^ 106) with (2 ^ 53 * 2 ^ 53). nia. }
  assert (Zpos (digits2_pos (m1 * m2)) = 105 \/
          Zpos (digits2_pos (m1 * m2)) = 106) as Hdp.
  { destruct (Z.lt_ge_cases (Zpos (m1 * m2)) (2 ^ 105)).
    - left. apply digits2_unique. change (105 - 1) with 104. lia.
    - right. apply digits2_unique. change (106 - 1) with 105. lia. }
  destruct (binary_round_aux_normal false (m1 * m2) (e1 + e2) loc_Exact)
    as (m & e & H1 & H2 & H3 & _); [lia | lia |].
  rewrite H3.
  replace (e <=? 971) with true by (symmetry; apply Z.leb_le; lia).
  exists m, e. repeat split; [assumption | lia | lia].
Qed.

Lemma to_int_normal (x : spec_float) (lo hi : Z) :
  normal x lo hi -> exists v, to_int x = Ok v /\ 0 <= v.
Proof.
  intros (m & e & -> & _ & _). cbn [to_int].
  eexists. split; [reflexivity|].
  destruct e as [| p | p].
  - lia.
  - apply Z.mul_nonneg_nonneg; [lia|]. apply Z.pow_nonneg. lia.
  - apply Z.div_pos; [lia|]. apply Z.pow_pos_nonneg; lia.
Qed.

Lemma normal_truthy (x : spec_float) (lo hi : Z) :
  normal x lo hi -> truthy x = true.
Proof. intros (m & e & -> & _). reflexivity. Qed.
End FloatFacts.


(* ###################################################################### *)
(** * Running the monad *)

Section MonadSteps.
Context {A B : Type}.

Lemma bind_ret (a : A) (k : A -> M B) (d : decoder) :
  bind (ret a) k d = k a d.
Proof. unfold bind, ret. now destruct (k a d). Qed.

Lemma bind_gets (f : decoder -> A) (k : A -> M B) (d : decoder) :
  bind (gets f) k d = k (f d) d.
Proof. unfold bind, gets. now destruct (k (f d) d). Qed.

Lemma bind_raise (e : exn) (k : A -> M B) (d : decoder) :
  bind (raise e) k d = (Raise e, []).
Proof. reflexivity. Qed.

Lemma bind_lift_ok (a : A) (k : A -> M B) (d : decoder) :
  bind (lift (Ok a)) k d = k a d.
Proof. apply bind_ret. Qed.

Lemma bind_lift_raise (e : exn) (k : A -> M B) (d : decoder) :
  bind (lift (Raise e)) k d = (Raise e, []).
Proof. reflexivity. Qed.
End MonadSteps.

Lemma bind_modify {B : Type} (f : decoder -> decoder) (k : unit -> M B)
      (d : decoder) :
  bind (modify f) k d = k tt (f d).
Proof. unfold bind, modify. now destruct (k tt (f d)). Qed.

Lemma bind_put {B : Type} (o : output) (k : unit -> M B) (d : decoder) :
  bind (put o) k d = (fst (k tt d), o :: snd (k tt d)).
Proof. reflexivity. Qed.

Lemma bind_assoc {A B C : Type} (m : M A) (k : A -> M B) (k' : B -> M C)
      (d : decoder) :
  bind (bind m k) k' d = bind m (fun a => bind (k a) k') d.
Proof.
  unfold bind. destruct (m d) as [[[a d'] | e] o]; [|reflexivity].
  destruct (k a d') as [[[b d''] | e] o']; cbn [fst snd].
  - now rewrite app_assoc.
  - reflexivity.
Qed.

(** The result of a bind from the results of its parts. *)
Lemma bind_ok {A B : Type} (m : M A) (k : A -> M B) (d d' : decoder) (a : A)
      (o : list output) :
  m d = (Ok (a, d'), o) ->
  bind m k d = (fst (k a d'), o ++ snd (k a d')).
Proof. intros H. unfold bind. now rewrite H. Qed.

Lemma bind_fail {A B : Type} (m : M A) (k : A -> M B) (d : decoder) (e : exn)
      (o : list output) :
  m d = (Raise e, o) ->
  bind m k d = (Raise e, o).
Proof. intros H. unfold bind. now rewrite H. Qed.

Ltac mstep :=
  first
    [ rewrite bind_assoc
    | rewrite bind_ret
    | rewrite bind_gets
    | rewrite bind_modify
    | rewrite bind_put
    | rewrite bind_raise
    | rewrite bind_lift_ok
    | rewrite bind_lift_raise ];
  cbv beta.

Ltac mrun := repeat mstep.

Lemma bind_ext {A B} (m : M A) (k k' : A -> M B) (d : decoder) :
  (forall a d', k a d' = k' a d') -> bind m k d = bind m k' d.
Proof.
  intros Hk. unfold bind. destruct (m d) as [[[a d1] | e] o]; [|reflexivity].
  now rewrite Hk.
Qed.

Lemma for_each_app {A} (l1 l2 : list A) (body : A -> M unit) (d : decoder) :
  for_each (l1 ++ l2) body d =
    bind (for_each l1 body) (fun _ => for_each l2 body) d.
Proof.
  revert d. induction l1 as [| a l1 IH]; intros d; cbn [for_each app].
  - now rewrite bind_ret.
  - rewrite bind_assoc. apply bind_ext. intros _ d'. apply IH.
Qed.

Lemma bind_ret_tt (m : M unit) (d : decoder) :
  bind m (fun _ => ret tt) d = m d.
Proof.
  unfold bind, ret. destruct (m d) as [[[[] d1] | e] o]; cbn [fst snd];
    now rewrite ?app_nil_r.
Qed.

Lemma bind_fst_ok {A B} (m : M A) (k : A -> M B) (d d' : decoder) (a : A) :
  fst (m d) = Ok (a, d') -> fst (bind m k d) = fst (k a d').
Proof.
  intros H. unfold bind. destruct (m d) as [[[a1 d1] | e] o]; cbn [fst] in *.
  - now injection H as -> ->.
  - discriminate H.
Qed.

Lemma for_each_put {A} (l : list A) (f : A -> output) (d : decoder) :
  for_each l (fun a => put (f a)) d = (Ok (tt, d), map f l).
Proof.
  induction l as [| a l IH]; [reflexivity|].
  cbn [for_each map]. rewrite bind_put, IH. reflexivity.
Qed.

Lemma feed_bits_app (handler : pins -> M unit) (clk stb : Z)
      (l1 l2 : list (Z * bool)) (d : decoder) :
  feed_bits handler clk stb (l1 ++ l2) d =
    bind (feed_bits handler clk stb l1)
         (fun _ => feed_bits handler clk stb l2) d.
Proof. apply for_each_app. Qed.

Lemma run_app (l1 l2 : list wait_result) (d : decoder) :
  run (l1 ++ l2) d = bind (run l1) (fun _ => run l2) d.
Proof. apply for_each_app. Qed.

(** Reduction of a method on a decoder given by its fields, leaving
    the arithmetic on bits and the formatting alone. *)
Ltac run_method :=
  lazy -[Z.lor Z.shiftr Z.shiftl Z.b2z PyStr.str_int compose_annot
         format_data py_bytes1 handle_bitrate].

(** Reduction of a method on a decoder given by its fields when the
    counters are not known: the tests on them are left to be rewritten. *)
Ltac run_sym :=
  lazy -[Z.leb Z.ltb Z.add Z.eqb Z.lor Z.shiftr Z.shiftl PyStr.str_int
         compose_annot format_data py_bytes1 last_n rev handle_bitrate].


(* ###################################################################### *)
(** * The bit rate computation never fails on a capture *)

Import FloatFacts.
Lemma of_int_one : PyFloat.of_int 1 = Ok (S754_finite false 4503599627370496 (-52)).
Proof. reflexivity. Qed.

Lemma normal_one : normal (S754_finite false 4503599627370496 (-52)) (-52) (-52).
Proof. exists 4503599627370496%positive, (-52). repeat split; lia. Qed.

Lemma normal_weaken x lo hi lo' hi' :
  normal x lo hi -> lo' <= lo -> hi <= hi' -> normal x lo' hi'.
Proof.
  intros (m & e & -> & Hd & He) Hlo Hhi. exists m, e. repeat split; [assumption | lia | lia].
Qed.

Lemma handle_bitrate_spec (d : decoder) (rate start : Z) :
  samplerate d = Some rate -> pdu_start d = Some start ->
  0 < rate < 2 ^ 64 -> 0 <= samplenum d - start - 1 < 2 ^ 64 ->
  0 <= pdu_bits d < 2 ^ 64 ->
  exists one fr e0 fk,
    PyFloat.of_int 1 = Ok one /\
    PyFloat.of_int rate = Ok fr /\
    PyFloat.div one fr = Ok e0 /\
    PyFloat.of_int (samplenum d - start - 1) = Ok fk /\
    ((samplenum d - start - 1 = 0 /\ PyFloat.truthy (PyFloat.mul e0 fk) = false /\
      handle_bitrate d = (Ok (tt, d), []))
     \/
     (0 < samplenum d - start - 1 /\ PyFloat.truthy (PyFloat.mul e0 fk) = true /\
      exists q fb v,
        PyFloat.div one (PyFloat.mul e0 fk) = Ok q /\
        PyFloat.of_int (pdu_bits d) = Ok fb /\
        PyFloat.to_int (PyFloat.mul q fb) = Ok v /\
        0 <= v /\
        handle_bitrate d =
          (Ok (tt, d), [out_bitrate (ss_byte d) (samplenum d) v]))).
Proof.
  intros Hsr Hps Hrate Hk Hbits.
  destruct (of_int_normal rate Hrate) as (fr & Hfr & Nfr).
  destruct (div_normal _ _ _ _ _ _ normal_one Nfr) as (e0 & He0 & Ne0); [lia | lia |].
  exists (S754_finite false 4503599627370496 (-52)), fr, e0.
  unfold handle_bitrate. rewrite bind_gets, Hsr, Hfr. mrun.
  rewrite of_int_one. mrun. rewrite He0. mrun. rewrite Hps. mrun.
  destruct (Z.eq_dec (samplenum d - start - 1) 0) as [Hz | Hnz].
  - rewrite Hz. exists (S754_zero false).
    destruct Ne0 as (m0 & x0 & -> & _ & _).
    repeat split; try reflexivity. left. repeat split; reflexivity.
  - destruct (of_int_normal (samplenum d - start - 1)) as (fk & Hfk & Nfk); [lia|].
    exists fk. rewrite Hfk. mrun.
    pose proof (mul_normal _ _ _ _ _ _ Ne0 Nfk) as Nel.
    assert (normal (PyFloat.mul e0 fk) (-117) 15) as Nel'.
    { eapply normal_weaken; [apply Nel; lia | lia | lia]. }
    clear Nel. rewrite (normal_truthy _ _ _ Nel').
    destruct (div_normal _ _ _ _ _ _ normal_one Nel') as (q & Hq & Nq); [lia | lia |].
    unfold when. rewrite Hq. mrun.
    repeat split; try reflexivity. right. split; [lia|]. split; [reflexivity|].
    exists q.
    destruct (Z.eq_dec (pdu_bits d) 0) as [Hb0 | Hb0].
    + rewrite Hb0. exists (S754_zero false), 0.
      destruct Nq as (mq & xq & -> & _ & _).
      repeat split; try reflexivity.
    + destruct (of_int_normal (pdu_bits d)) as (fb & Hfb & Nfb); [lia|].
      pose proof (mul_normal _ _ _ _ _ _ Nq Nfb) as Npr.
      destruct (to_int_normal (PyFloat.mul q fb) _ _ (Npr ltac:(lia) ltac:(lia)))
        as (v & Hv & Hv0).
      exists fb, v. rewrite Hfb. mrun. rewrite Hv. mrun.
      repeat split; try assumption; reflexivity.
Qed.


(* ###################################################################### *)
(** * Invariants of the methods *)

Section Keeps.
Variable P : decoder -> Prop.
Variable E : exn -> Prop.

Lemma keeps_ret {A} (a : A) : keeps P E (ret a).
Proof. intros d Hd. exact Hd. Qed.

Lemma keeps_gets {A} (f : decoder -> A) : keeps P E (gets f).
Proof. intros d Hd. exact Hd. Qed.

Lemma keeps_put (o : output) : keeps P E (put o).
Proof. intros d Hd. exact Hd. Qed.

Lemma keeps_raise {A} (e : exn) : E e -> keeps P E (@raise A e).
Proof. intros He d Hd. exact He. Qed.

Lemma keeps_lift {A} (r : outcome A) :
  (forall e, r = Raise e -> E e) -> keeps P E (lift r).
Proof.
  intros Hr d Hd. destruct r as [a | e]; cbn.
  - exact Hd.
  - now apply Hr.
Qed.

Lemma keeps_modify (f : decoder -> decoder) :
  (forall d, P d -> P (f d)) -> keeps P E (modify f).
Proof. intros Hf d Hd. now apply Hf. Qed.

Lemma keeps_bind {A B} (m : M A) (k : A -> M B) :
  keeps P E m -> (forall a, keeps P E (k a)) -> keeps P E (bind m k).
Proof.
  intros Hm Hk d Hd. specialize (Hm d Hd). unfold bind.
  destruct (m d) as [[[a d'] | e] o]; cbn [fst] in *.
  - apply (Hk a d' Hm).
  - exact Hm.
Qed.

Lemma keeps_when (c : bool) (m : M unit) :
  keeps P E m -> keeps P E (when c m).
Proof. intros Hm. destruct c; [exact Hm | apply keeps_ret]. Qed.

Lemma keeps_for_each {A} (l : list A) (body : A -> M unit) :
  (forall a, keeps P E (body a)) -> keeps P E (for_each l body).
Proof.
  intros Hb. induction l as [| a l IH]; cbn [for_each].
  - apply keeps_ret.
  - apply keeps_bind; [apply Hb | intros _; exact IH].
Qed.
End Keeps.

(** One step through a method for [keeps]: the structure of the method
    is followed, and what is left are the assignments and the calls
    that can raise. *)
Ltac keeps_step :=
  match goal with
  | |- keeps _ _ (bind _ _) => apply keeps_bind; [| intros ?]
  | |- keeps _ _ (ret _) => apply keeps_ret
  | |- keeps _ _ (gets _) => apply keeps_gets
  | |- keeps _ _ (put _) => apply keeps_put
  | |- keeps _ _ (when _ _) => apply keeps_when
  | |- keeps _ _ (for_each _ _) => apply keeps_for_each; intros ?
  | |- keeps _ _ (modify _) => apply keeps_modify
  | |- keeps _ _ (lift _) => apply keeps_lift
  | |- keeps _ _ (raise _) => apply keeps_raise
  | |- keeps _ _ (if ?c then _ else _) => destruct c
  | |- keeps _ _ (match ?x with _ => _ end) => destruct x
  end.

(** The exceptions of the helpers. *)
Lemma py_bytes1_raises (v : Z) (e : exn) :
  py_bytes1 v = Raise e -> e = ValueError.
Proof. unfold py_bytes1. destruct (_ && _); congruence. Qed.

Lemma pair_index_raises {A} (a b : A) (i : Z) (e : exn) :
  pair_index a b i = Raise e -> e = IndexError.
Proof.
  unfold pair_index. destruct (_ || _); [congruence|].
  destruct (_ || _); congruence.
Qed.

Lemma of_int_raises (z : Z) (e : exn) :
  PyFloat.of_int z = Raise e -> e = OverflowError.
Proof.
  unfold PyFloat.of_int. destruct (binary_normalize _ _ _ _ _); congruence.
Qed.

Lemma div_raises (x y : spec_float) (e : exn) :
  PyFloat.div x y = Raise e -> e = ZeroDivisionError.
Proof. unfold PyFloat.div. destruct (PyFloat.is_zero y); congruence. Qed.

Lemma to_int_raises (x : spec_float) (e : exn) :
  PyFloat.to_int x = Raise e -> e = OverflowError \/ e = ValueError.
Proof. destruct x; cbn; intros H; inversion H; auto. Qed.

Ltac raises_side :=
  let e := fresh "e" in
  let H := fresh "H" in
  intros e H;
  first
    [ apply py_bytes1_raises in H
    | apply pair_index_raises in H
    | apply of_int_raises in H
    | apply div_raises in H
    | apply to_int_raises in H; destruct H as [H | H] ];
  subst e; split; discriminate.

(* ###################################################################### *)
(** * The checks at the start of [decode] *)

Section NoPreconditionError.
Let P : decoder -> Prop := fun _ => True.
Let E : exn -> Prop := not_a_precondition_error.

Ltac side :=
  first [ exact (fun _ _ => I) | raises_side | split; discriminate ].

Ltac go := repeat (keeps_step; try side).

Lemma clear_data_no_precondition_error : keeps P E clear_data.
Proof. unfold clear_data. go. Qed.

Lemma handle_bitrate_no_precondition_error : keeps P E handle_bitrate.
Proof. unfold handle_bitrate. go. Qed.

Lemma handle_byte_wire3_no_precondition_error : keeps P E handle_byte_wire3.
Proof. unfold handle_byte_wire3, putp, putb, putx. go. Qed.

Lemma loop_body_no_precondition_error (p : pins) : keeps P E (loop_body p).
Proof.
  pose proof clear_data_no_precondition_error.
  pose proof handle_bitrate_no_precondition_error.
  pose proof handle_byte_wire3_no_precondition_error.
  unfold loop_body, handle_start, handle_stop, handle_data, handle_ack,
    handle_stop_wire2, handle_stop_wire3, handle_data_wire2,
    handle_data_wire3, matched_at, push_bit, close_previous_bit, bits_at,
    putp, putb, putx.
  destruct p as [[clk dio] stb].
  go; assumption.
Qed.

Lemma decode_loop_no_precondition_error (h : host) (rest : list sample) :
  forall prev n, keeps P E (decode_loop h prev n rest).
Proof.
  induction rest as [| cur rest IH]; intros prev n; cbn [decode_loop].
  - apply keeps_ret.
  - apply keeps_bind; [apply keeps_gets | intros st].
    apply keeps_bind; [| intros _; apply IH].
    apply keeps_when. unfold on_wait.
    go. apply loop_body_no_precondition_error.
Qed.
End NoPreconditionError.

(* ###################################################################### *)
(** * C6: the fatal precondition failures *)

Lemma decode_unfold (h : host) (samples : list sample) (d : decoder) :
  decode h samples d =
    if samplerate_falsy (samplerate d) then (Raise SamplerateError, [])
    else if negb (has_clk h && has_dio h) then (Raise ChannelError, [])
    else match samples with
         | [] => (Ok (tt, d), [])
         | s0 :: _ => decode_loop h s0 0 samples d
         end.
Proof.
  unfold decode. rewrite bind_gets.
  destruct (samplerate_falsy (samplerate d)); [reflexivity|].
  cbn [map forallb has_channel]. rewrite andb_true_r.
  destruct (negb (has_clk h && has_dio h)); [reflexivity|].
  now destruct samples.
Qed.

(** C6: decoding fails at once, before any sample is looked at, exactly
    when no sample rate is configured or the clock or the data channel
    is not connected (a configured sample rate being a positive number);
    a missing strobe channel is no error: decoding enters its loop, in
    which each START sets the bus type from the condition that matched,
    and without a strobe only the two-wire START can match. *)
Theorem decode_fails_iff_precondition_missing
        (h : host) (samples : list sample) (d : decoder)
        (Hrate : forall z, samplerate d = Some z -> 0 < z) :
  ((fst (decode h samples d) = Raise SamplerateError \/
    fst (decode h samples d) = Raise ChannelError) <->
   (samplerate d = None \/ has_clk h = false \/ has_dio h = false)) /\
  (samplerate d = None ->
   decode h samples d = (Raise SamplerateError, [])) /\
  (samplerate d <> None -> has_clk h = false \/ has_dio h = false ->
   decode h samples d = (Raise ChannelError, [])) /\
  (samplerate d <> None -> has_clk h = true -> has_dio h = true ->
   decode h samples d =
     match samples with
     | [] => (Ok (tt, d), [])
     | s0 :: _ => decode_loop h s0 0 samples d
     end) /\
  (forall n m p d0 d1 o,
     state d0 = FIND_START ->
     on_wait (Wait n m p) d0 = (Ok (tt, d1), o) ->
     state d1 = FIND_DATA ->
     bustype d1 =
       Some (if nth 0 m false || nth 1 m false then wire3 else wire2)) /\
  (has_stb h = false ->
   forall prev cur,
     firstn 2 (map (cond_matches h prev cur) (wait_conds FIND_START)) =
       [false; false]).
Proof.
  assert (samplerate_falsy (samplerate d) = true <-> samplerate d = None)
    as Hfalsy.
  { destruct (samplerate d) as [z |] eqn:Ez; cbn.
    - specialize (Hrate z eq_refl). split; [lia | discriminate].
    - tauto. }
  pose proof (decode_unfold h samples d) as Hdec.
  assert (forall e, fst (match samples with
                         | [] => (Ok (tt, d), [])
                         | s0 :: _ => decode_loop h s0 0 samples d
                         end) = Raise e -> not_a_precondition_error e)
    as Hloop.
  { intros e He. destruct samples as [| s0 rest]; [discriminate|].
    pose proof (decode_loop_no_precondition_error h (s0 :: rest) s0 0 d I) as HK.
    rewrite He in HK. exact HK. }
  repeat split.
  - intros Hfail. rewrite Hdec in Hfail.
    destruct (samplerate_falsy (samplerate d)) eqn:Ef.
    + left. now apply Hfalsy.
    + clear Hfalsy. destruct (has_clk h), (has_dio h); cbn [andb negb] in Hfail; auto.
      destruct Hfail as [Hf | Hf]; apply Hloop in Hf; destruct Hf; congruence.
  - intros Hmiss. rewrite Hdec.
    destruct (samplerate_falsy (samplerate d)) eqn:Ef; [now left|].
    destruct Hmiss as [Hn | [Hc | Hc]].
    + apply Hfalsy in Hn. discriminate.
    + rewrite Hc. now right.
    + rewrite Hc, andb_false_r. now right.
  - intros Hn. rewrite Hdec. apply Hfalsy in Hn. now rewrite Hn.
  - intros Hn Hc. rewrite Hdec.
    destruct (samplerate_falsy (samplerate d)) eqn:Ef.
    + exfalso. apply Hn. now apply Hfalsy.
    + destruct Hc as [Hc | Hc]; rewrite Hc; [|rewrite andb_false_r]; reflexivity.
  - intros Hn Hc Hd. rewrite Hdec, Hc, Hd.
    destruct (samplerate_falsy (samplerate d)) eqn:Ef.
    + exfalso. apply Hn. now apply Hfalsy.
    + reflexivity.
  - intros n m p d0 d1 o Hst Hrun Hst1.
    unfold on_wait in Hrun. rewrite !bind_modify in Hrun.
    destruct d0; cbn in Hst; subst.
    destruct m as [| m0 [| m1 [| m2 m]]]; cbn in Hrun; try discriminate;
      destruct m0; try destruct m1; try destruct m2; cbn in Hrun;
      inversion Hrun; subst; try reflexivity; try discriminate.
  - intros Hstb prev cur. cbn. unfold has_channel. rewrite Hstb.
    cbn. now rewrite !andb_false_r.
Qed.

Lemma decode_fails_iff_precondition_missing_witness :
  (forall z, samplerate (new_decoder (Some 1000000) "Hex") = Some z -> 0 < z) /\
  decode two_wire_host scenario (new_decoder (Some 1000000) "Hex") =
    decode_loop two_wire_host (Sample true true false) 0 scenario
                (new_decoder (Some 1000000) "Hex").
Proof.
  assert (forall z, samplerate (new_decoder (Some 1000000) "Hex") = Some z ->
                    0 < z) as H.
  { intros z Hz. injection Hz as <-. reflexivity. }
  split; [exact H|].
  destruct (decode_fails_iff_precondition_missing
              two_wire_host scenario (new_decoder (Some 1000000) "Hex") H)
    as (_ & _ & _ & Hgo & _).
  apply Hgo; [discriminate | reflexivity | reflexivity].
Defined.

(* ###################################################################### *)
(** * C10: no division by zero *)

Import FloatFacts.

Lemma of_int_not_zero (z : Z) (f : spec_float) :
  z <> 0 -> PyFloat.of_int z = Ok f -> PyFloat.is_zero f = false.
Proof.
  intros Hz Hf. destruct (of_int_nonzero z Hz) as (m & e & _ & _ & H).
  rewrite H in Hf. destruct (e <=? 971); [|discriminate].
  injection Hf as <-. reflexivity.
Qed.

Lemma div_guarded (x elapsed : spec_float) :
  PyFloat.truthy elapsed = true ->
  PyFloat.div x elapsed = Ok (SFdiv PyFloat.prec PyFloat.emax x elapsed).
Proof.
  unfold PyFloat.truthy, PyFloat.div. now destruct (PyFloat.is_zero elapsed).
Qed.

Section NoZeroDivision.
Let P : decoder -> Prop := samplerate_truthy.
Let E : exn -> Prop := not_a_zero_division.

Ltac side :=
  first
    [ now (intros [] ?)
    | let e := fresh "e" in
      let H := fresh "H" in
      intros e H;
      first
        [ apply py_bytes1_raises in H
        | apply pair_index_raises in H
        | apply of_int_raises in H
        | apply to_int_raises in H; destruct H as [H | H] ];
      subst e; discriminate
    | discriminate ].

Ltac go := repeat (keeps_step; try side).

Lemma clear_data_no_zero_division : keeps P E clear_data.
Proof. unfold clear_data. go. Qed.

Lemma handle_bitrate_no_zero_division : keeps P E handle_bitrate.
Proof.
  intros d Hd. pose proof Hd as HP.
  unfold handle_bitrate. rewrite bind_gets.
  unfold P, samplerate_truthy in Hd.
  destruct (samplerate d) as [z |] eqn:Ez; [| discriminate Hd].
  cbn in Hd. apply Z.eqb_neq in Hd.
  destruct (PyFloat.of_int z) as [fr | e] eqn:Efr.
  2:{ rewrite bind_lift_raise. apply of_int_raises in Efr. now subst e. }
  rewrite bind_lift_ok, of_int_one, bind_lift_ok.
  unfold PyFloat.div at 1. rewrite (of_int_not_zero z fr Hd Efr).
  mrun.
  destruct (pdu_start d) as [start |]; [| now rewrite bind_raise].
  mrun.
  destruct (PyFloat.of_int (samplenum d - start - 1)) as [fk | e] eqn:Efk.
  2:{ rewrite bind_lift_raise. apply of_int_raises in Efk. now subst e. }
  rewrite bind_lift_ok. unfold when.
  destruct (PyFloat.truthy _) eqn:Et.
  2:{ exact HP. }
  rewrite (div_guarded _ _ Et). mrun.
  destruct (PyFloat.of_int (pdu_bits d)) as [fb | e] eqn:Efb.
  2:{ rewrite bind_lift_raise. apply of_int_raises in Efb. now subst e. }
  mrun.
  destruct (PyFloat.to_int _) as [v | e] eqn:Ev.
  2:{ rewrite bind_lift_raise. apply to_int_raises in Ev.
      destruct Ev; now subst e. }
  mrun. exact HP.
Qed.

Lemma handle_byte_wire3_no_zero_division : keeps P E handle_byte_wire3.
Proof. unfold handle_byte_wire3, putp, putb, putx. go. Qed.

Lemma loop_body_no_zero_division (p : pins) : keeps P E (loop_body p).
Proof.
  pose proof clear_data_no_zero_division.
  pose proof handle_bitrate_no_zero_division.
  pose proof handle_byte_wire3_no_zero_division.
  unfold loop_body, handle_start, handle_stop, handle_data, handle_ack,
    handle_stop_wire2, handle_stop_wire3, handle_data_wire2,
    handle_data_wire3, matched_at, push_bit, close_previous_bit, bits_at,
    putp, putb, putx.
  destruct p as [[clk dio] stb].
  go; assumption.
Qed.

Lemma decode_loop_no_zero_division (h : host) (rest : list sample) :
  forall prev n, keeps P E (decode_loop h prev n rest).
Proof.
  induction rest as [| cur rest IH]; intros prev n; cbn [decode_loop].
  - apply keeps_ret.
  - apply keeps_bind; [apply keeps_gets | intros st].
    apply keeps_bind; [| intros _; apply IH].
    apply keeps_when. unfold on_wait.
    go. apply loop_body_no_zero_division.
Qed.
End NoZeroDivision.

(** C10: once [decode] has checked that the sample rate is true, no bit
    rate computation that it reaches divides by zero: [decode] never
    raises ZeroDivisionError, whatever the capture; the float of a
    non-zero sample rate is not zero; and the division by [elapsed] is
    made only when [elapsed] is not zero. *)
Theorem bitrate_never_divides_by_zero :
  (forall h samples d,
     fst (decode h samples d) <> Raise ZeroDivisionError) /\
  (forall d,
     samplerate_truthy d ->
     fst (handle_bitrate d) <> Raise ZeroDivisionError) /\
  (forall rate f,
     samplerate_falsy (Some rate) = false ->
     PyFloat.of_int rate = Ok f ->
     exists q, PyFloat.div (S754_finite false 4503599627370496 (-52)) f = Ok q) /\
  (forall x elapsed,
     PyFloat.truthy elapsed = true ->
     exists q, PyFloat.div x elapsed = Ok q).
Proof.
  repeat split.
  - intros h samples d. rewrite decode_unfold.
    destruct (samplerate_falsy (samplerate d)) eqn:Ef; [discriminate|].
    destruct (negb _); [discriminate|].
    destruct samples as [| s0 rest]; [discriminate|].
    pose proof (decode_loop_no_zero_division h (s0 :: rest) s0 0 d Ef) as HK.
    intros He. rewrite He in HK. now apply HK.
  - intros d Hd He.
    pose proof (handle_bitrate_no_zero_division d Hd) as HK.
    rewrite He in HK. now apply HK.
  - intros rate f Hr Hf. cbn in Hr. apply Z.eqb_neq in Hr.
    unfold PyFloat.div. rewrite (of_int_not_zero rate f Hr Hf). eauto.
  - intros x elapsed Ht. rewrite (div_guarded _ _ Ht). eauto.
Qed.

(* ###################################################################### *)
(** * C4: classification of the bytes and the byte counter *)

Lemma byte_counter_app (log1 log2 : list output) :
  forall c,
    byte_counter c (log1 ++ log2) = byte_counter (byte_counter c log1) log2.
Proof.
  induction log1 as [| o log1 IH]; intros c; [reflexivity|].
  destruct o as [s e ptype [| b | bs] | | |]; cbn [byte_counter app]; apply IH.
Qed.

Lemma classified_app (log1 log2 : list output) :
  forall c,
    classified c (log1 ++ log2) =
      classified c log1 && classified (byte_counter c log1) log2.
Proof.
  induction log1 as [| o log1 IH]; intros c; [reflexivity|].
  destruct o as [s e ptype [| b | bs] | | |];
    cbn [classified byte_counter app]; rewrite ?IH, ?andb_assoc; reflexivity.
Qed.

Section TracksBytes.

Lemma tracks_ret {A} (a : A) : tracks_bytes (ret a).
Proof.
  intros d o r H. injection H as <- <-. split; [reflexivity|].
  intros a' d' H. now injection H as _ <-.
Qed.

Lemma tracks_gets {A} (f : decoder -> A) : tracks_bytes (gets f).
Proof.
  intros d o r H. injection H as <- <-. split; [reflexivity|].
  intros a' d' H. now injection H as _ <-.
Qed.

Lemma tracks_raise {A} (e : exn) : tracks_bytes (@raise A e).
Proof.
  intros d o r H. injection H as <- <-. split; [reflexivity|].
  intros a' d' H. discriminate H.
Qed.

Lemma tracks_lift {A} (x : outcome A) : tracks_bytes (lift x).
Proof. destruct x; [apply tracks_ret | apply tracks_raise]. Qed.

Lemma tracks_put (x : output) : neutral x -> tracks_bytes (put x).
Proof.
  intros Hx d o r H. injection H as <- <-. destruct (Hx (bytecount d)) as [H1 H2].
  split; [exact H2|].
  intros a' d' H. injection H as _ <-. now rewrite H1.
Qed.

Lemma tracks_modify (f : decoder -> decoder) :
  (forall d, bytecount (f d) = bytecount d) -> tracks_bytes (modify f).
Proof.
  intros Hf d o r H. injection H as <- <-. split; [reflexivity|].
  intros a' d' H. injection H as _ <-. apply Hf.
Qed.

Lemma tracks_bind {A B} (m : M A) (k : A -> M B) :
  tracks_bytes m -> (forall a, tracks_bytes (k a)) ->
  tracks_bytes (bind m k).
Proof.
  intros Hm Hk d o r H. unfold bind in H.
  destruct (m d) as [[[a d1] | e] o1] eqn:Em.
  - destruct (Hm d o1 _ Em) as [Hc1 Hb1]. specialize (Hb1 a d1 eq_refl).
    destruct (k a d1) as [r2 o2] eqn:Ek. cbn [fst snd] in H.
    injection H as <- <-.
    destruct (Hk a d1 o2 r2 Ek) as [Hc2 Hb2].
    rewrite classified_app, byte_counter_app, Hc1, <- Hb1.
    split; [exact Hc2 | exact Hb2].
  - injection H as <- <-. destruct (Hm d o1 _ Em) as [Hc1 _].
    split; [exact Hc1 | discriminate].
Qed.

Lemma tracks_when (c : bool) (m : M unit) :
  tracks_bytes m -> tracks_bytes (when c m).
Proof. intros Hm. destruct c; [exact Hm | apply tracks_ret]. Qed.

Lemma tracks_for_each {A} (l : list A) (body : A -> M unit) :
  (forall a, tracks_bytes (body a)) -> tracks_bytes (for_each l body).
Proof.
  intros Hb. induction l as [| a l IH]; cbn [for_each].
  - apply tracks_ret.
  - apply tracks_bind; [apply Hb | intros _; exact IH].
Qed.

Lemma tracks_bind_ret {A B} (a : A) (k : A -> M B) :
  tracks_bytes (k a) -> tracks_bytes (bind (ret a) k).
Proof. intros Hk d o r H. rewrite bind_ret in H. now apply Hk. Qed.

Lemma tracks_bind_raise {A B} (e : exn) (k : A -> M B) :
  tracks_bytes (bind (raise e) k).
Proof.
  intros d o r H. rewrite bind_raise in H. injection H as <- <-.
  split; [reflexivity | discriminate].
Qed.
End TracksBytes.

Ltac tracks_step :=
  match goal with
  | |- tracks_bytes (bind (ret _) _) => apply tracks_bind_ret
  | |- tracks_bytes (bind (raise _) _) => apply tracks_bind_raise
  | |- tracks_bytes (bind _ _) => apply tracks_bind; [| intros ?]
  | |- tracks_bytes (ret _) => apply tracks_ret
  | |- tracks_bytes (gets _) => apply tracks_gets
  | |- tracks_bytes (put _) => apply tracks_put; now (intros ?; split)
  | |- tracks_bytes (when _ _) => apply tracks_when
  | |- tracks_bytes (for_each _ _) => apply tracks_for_each; intros ?
  | |- tracks_bytes (modify _) => apply tracks_modify; now (intros [])
  | |- tracks_bytes (lift _) => apply tracks_lift
  | |- tracks_bytes (raise _) => apply tracks_raise
  | |- tracks_bytes (if ?c then _ else _) => destruct c
  | |- tracks_bytes (match ?x with _ => _ end) => destruct x
  end.

Ltac tracks := repeat tracks_step.

Lemma clear_data_tracks : tracks_bytes clear_data.
Proof. unfold clear_data. tracks. Qed.

Lemma handle_bitrate_tracks : tracks_bytes handle_bitrate.
Proof. unfold handle_bitrate. tracks. Qed.

Lemma handle_start_tracks (p : pins) : tracks_bytes (handle_start p).
Proof.
  intros d o r H. destruct d. cbn in H. injection H as <- <-.
  split; [reflexivity|]. intros a d' H. now injection H as _ <-.
Qed.

(** The part of a method that displays the data byte: the packets are
    computed from the decoder as it is. *)
Ltac tracks_block :=
  let d := fresh "d" in
  let o := fresh "o" in
  let r := fresh "r" in
  let H := fresh "H" in
  intros d o r H; destruct d;
  cbn -[compose_annot format_data PyStr.str_int Z.add Z.eqb] in H;
  repeat
    match type of H with
    | context [PyFloat.of_int ?z] => destruct (PyFloat.of_int z)
    | context [py_bytes1 ?v] => destruct (py_bytes1 v)
    | context [rev ?l] => destruct (rev l)
    end;
  cbn -[compose_annot format_data PyStr.str_int Z.add Z.eqb] in H;
  injection H as <- <-;
  cbn -[compose_annot format_data PyStr.str_int Z.add Z.eqb];
  repeat
    match goal with
    | |- context [?c =? 0] => destruct (c =? 0)
    end;
  (split; [reflexivity |]);
  let a := fresh "a" in
  let d' := fresh "d'" in
  let H' := fresh "H" in
  intros a d' H'; first [discriminate H' | now injection H' as _ <-].

Lemma handle_data_wire2_tracks (p : pins) : tracks_bytes (handle_data_wire2 p).
Proof.
  destruct p as [[clk dio] stb].
  unfold handle_data_wire2, push_bit, close_previous_bit, bits_at.
  do 5 (apply tracks_bind; [tracks | intros ?]).
  destruct (_ <=? 8); [tracks|].
  tracks_block.
Qed.

Lemma handle_ack_tracks (p : pins) : tracks_bytes (handle_ack p).
Proof.
  destruct p as [[clk dio] stb]. unfold handle_ack.
  do 4 (apply tracks_bind; [tracks | intros ?]).
  unfold pair_index, putp, putx.
  destruct (_ || _); [| destruct (_ || _)]; cbn [lift];
    tracks.
Qed.

Lemma stop_tail_tracks :
  tracks_bytes
    (n <- gets samplenum ;;
     modify (set_ss n) ;; modify (set_es n) ;;
     putp (commands STOP) PNone ;;
     putx STOP (protocol STOP) ;;
     clear_data ;;
     modify (set_state FIND_START)).
Proof. tracks_block. Qed.

Lemma handle_stop_wire2_tracks : tracks_bytes handle_stop_wire2.
Proof.
  unfold handle_stop_wire2.
  apply tracks_bind; [apply handle_bitrate_tracks | intros _].
  apply stop_tail_tracks.
Qed.

Lemma handle_byte_wire3_tracks : tracks_bytes handle_byte_wire3.
Proof.
  unfold handle_byte_wire3.
  apply tracks_bind; [tracks | intros bs].
  destruct bs as [| b0 rest]; [tracks|].
  do 4 (apply tracks_bind; [tracks | intros ?]).
  tracks_block.
Qed.

Lemma handle_data_wire3_tracks (p : pins) : tracks_bytes (handle_data_wire3 p).
Proof.
  pose proof handle_byte_wire3_tracks. pose proof clear_data_tracks.
  destruct p as [[clk dio] stb].
  unfold handle_data_wire3, push_bit, close_previous_bit.
  tracks; assumption.
Qed.

Lemma handle_stop_wire3_tracks : tracks_bytes handle_stop_wire3.
Proof.
  unfold handle_stop_wire3.
  apply tracks_bind; [apply handle_bitrate_tracks | intros _].
  apply tracks_bind; [apply handle_byte_wire3_tracks | intros _].
  apply stop_tail_tracks.
Qed.

Lemma loop_body_tracks (p : pins) : tracks_bytes (loop_body p).
Proof.
  pose proof handle_stop_wire2_tracks. pose proof handle_stop_wire3_tracks.
  pose proof (handle_data_wire2_tracks p).
  pose proof (handle_data_wire3_tracks p).
  pose proof (handle_ack_tracks p). pose proof (handle_start_tracks p).
  unfold loop_body, handle_stop, handle_data, matched_at.
  tracks; assumption.
Qed.

Lemma decode_loop_tracks (h : host) (rest : list sample) :
  forall prev n, tracks_bytes (decode_loop h prev n rest).
Proof.
  induction rest as [| cur rest IH]; intros prev n; cbn [decode_loop].
  - apply tracks_ret.
  - apply tracks_bind; [apply tracks_gets | intros st].
    apply tracks_bind; [| intros _; apply IH].
    apply tracks_when. unfold on_wait.
    tracks. apply loop_body_tracks.
Qed.

Lemma decode_tracks (h : host) (samples : list sample) :
  tracks_bytes (decode h samples).
Proof.
  unfold decode. tracks. apply decode_loop_tracks.
Qed.

(** C4: along the outputs of [decode] on any capture, the first byte
    event after each START packet is a COMMAND and every later one of
    the session a DATA; [self.bytecount] is the number of byte events
    since the last START: the START handler sets it to 0, each emitted
    byte adds one, and nothing else changes it. *)
Theorem bytes_classified_and_counted
        (h : host) (samples : list sample) (d : decoder) :
  let log := snd (decode h samples d) in
  classified (bytecount d) log = true /\
  (forall d', fst (decode h samples d) = Ok (tt, d') ->
              bytecount d' = byte_counter (bytecount d) log) /\
  (forall p d0,
     exists d1 o,
       handle_start p d0 = (Ok (tt, d1), o) /\
       bytecount d1 = 0 /\ byte_counter (bytecount d0) o = 0).
Proof.
  cbn zeta.
  destruct (decode h samples d) as [r log] eqn:E.
  destruct (decode_tracks h samples d log r E) as [Hc Hb].
  cbn [fst snd]. split; [exact Hc|]. split.
  - intros d' ->. now apply (Hb tt).
  - intros p d0. destruct d0. do 2 eexists. cbn.
    split; [reflexivity|]. split; reflexivity.
Qed.

(* ###################################################################### *)
(** * C8: formatting a byte in a radix *)

Lemma format_data_default (data : Z) (radix : string) :
  PyStr.upper radix <> "DEC" ->
  PyStr.upper radix <> "BIN" ->
  PyStr.upper radix <> "OCT" ->
  format_data data radix = PyStr.format_int "0x" 16 4 data.
Proof.
  intros Hd Hb Ho. unfold format_data.
  apply String.eqb_neq in Hd, Hb, Ho. now rewrite Hd, Hb, Ho.
Qed.

Lemma format_data_hex_byte (data : Z) :
  0 <= data < 256 -> format_data data "Hex" = hex_byte data.
Proof.
  intros Hd.
  assert (forallb (fun k => String.eqb (format_data (Z.of_nat k) "Hex")
                                       (hex_byte (Z.of_nat k)))
                  (seq 0 256) = true) as Hall by (vm_compute; reflexivity).
  rewrite forallb_forall in Hall.
  specialize (Hall (Z.to_nat data)).
  rewrite Z2Nat.id in Hall by lia.
  apply String.eqb_eq, Hall, in_seq. lia.
Qed.

(** C8: [format_data] gives "0x0d" for 13 in radix Hex, "13" in Dec,
    "0b1101" in Bin and "0o15" in Oct; a radix that is none of Dec, Bin
    and Oct (whatever its case) is formatted as Hex; and Hex pads a byte
    with zeros to two digits after the prefix. *)
Theorem format_data_radix :
  format_data 13 "Hex" = "0x0d" /\
  format_data 13 "Dec" = "13" /\
  format_data 13 "Bin" = "0b1101" /\
  format_data 13 "Oct" = "0o15" /\
  (forall data radix,
     PyStr.upper radix <> "DEC" ->
     PyStr.upper radix <> "BIN" ->
     PyStr.upper radix <> "OCT" ->
     format_data data radix = format_data data "Hex") /\
  (forall data,
     0 <= data < 256 ->
     format_data data "Hex" = hex_byte data /\
     String.length (format_data data "Hex") = 4%nat).
Proof.
  repeat split; try reflexivity.
  - intros data radix Hd Hb Ho.
    rewrite (format_data_default data radix Hd Hb Ho).
    symmetry. apply format_data_default; discriminate.
  - now apply format_data_hex_byte.
  - rewrite format_data_hex_byte by assumption. reflexivity.
Qed.

(* ###################################################################### *)
(** * C1: the order of the bits in a byte *)

(** Shifting the accumulator right and setting bit 7, eight times from
    a cleared accumulator. *)
Lemma eight_shifts_lsb_first (b0 b1 b2 b3 b4 b5 b6 b7 : bool) :
  let step acc b := Z.lor (Z.shiftr acc 1) (Z.shiftl (Z.b2z b) 7) in
  fold_left step [b0; b1; b2; b3; b4; b5; b6; b7] 0 =
    lsb_first b0 b1 b2 b3 b4 b5 b6 b7.
Proof.
  destruct b0, b1, b2, b3, b4, b5, b6, b7; reflexivity.
Qed.

(** On a full buffer the three-wire data handler first flushes the
    byte and clears the accumulator, then takes the bit. *)
Lemma handle_data_wire3_on_full_buffer
      (clk dio stb : Z) (b : bit) (rest : list bit)
      (x_ss x_es x_ss_byte x_ss_ack : Z) (x_rate x_start : option Z)
      (x_pdu_bits : Z) (x_bus : option bus)
      (x_bytecount x_bitcount x_databyte : Z)
      (x_state : dstate) (n : Z) (x_matched : list bool) (x_radix : string) :
  8 <= x_bitcount -> 0 <= x_databyte < 256 ->
  fst (handle_data_wire3 (clk, dio, stb)
         (mkDecoder x_ss x_es x_ss_byte x_ss_ack x_rate x_start x_pdu_bits
                    x_bus x_bytecount x_bitcount x_databyte (b :: rest)
                    x_state n x_matched x_radix)) =
  Ok (tt,
      mkDecoder x_ss_byte n n x_ss_ack x_rate x_start x_pdu_bits x_bus
                (x_bytecount + 1) 1 (Z.lor (Z.shiftr 0 1) (Z.shiftl dio 7))
                [Bit dio n n] x_state n x_matched x_radix).
Proof.
  intros Hfull Hbyte.
  assert ((8 <=? x_bitcount) = true) as Hfull' by (apply Z.leb_le; lia).
  assert (py_bytes1 x_databyte = Ok [x_databyte]) as Hraw.
  { unfold py_bytes1.
    replace (0 <=? x_databyte) with true by (symmetry; apply Z.leb_le; lia).
    replace (x_databyte <? 256) with true by (symmetry; apply Z.ltb_lt; lia).
    reflexivity. }
  unfold handle_data_wire3, when. rewrite bind_gets. cbn [bitcount].
  rewrite Hfull'. unfold handle_byte_wire3.
  repeat (mrun; cbn [bits samplenum set_bits]).
  rewrite (bind_ok _ _ _ _ _ _ (for_each_put _ _ _)). cbn [fst].
  unfold putp, putb, putx, clear_data, push_bit.
  repeat (mrun;
          cbn [ss es ss_byte bytecount databyte bits radix samplenum bitcount
               set_ss set_es set_bits set_bytecount set_bitcount
               set_databyte set_ss_byte fst];
          rewrite ?Hraw).
  reflexivity.
Qed.

(** C1: eight data bits [b0 .. b7], [b0] sampled first, fed to the
    data handler of either bus type from a cleared accumulator, leave
    [b0 | b1<<1 | ... | b7<<7] in [self.databyte], and that is the
    value of the byte event that follows: on the ninth clock edge for
    the two-wire bus, on the flush for the three-wire bus.  So do eight
    bits fed to the three-wire handler when the buffer is full of the
    byte before, which the handler flushes and clears first. *)
Theorem byte_assembled_lsb_first
        (clk stb : Z) (b0 b1 b2 b3 b4 b5 b6 b7 : bool)
        (n0 n1 n2 n3 n4 n5 n6 n7 : Z) (d : decoder)
        (Hcount : bitcount d = 0) (Hbyte : databyte d = 0)
        (Hbits : bits d = []) :
  let edges := [(n0, b0); (n1, b1); (n2, b2); (n3, b3);
                (n4, b4); (n5, b5); (n6, b6); (n7, b7)] in
  let value := lsb_first b0 b1 b2 b3 b4 b5 b6 b7 in
  (exists d2,
     fst (feed_bits handle_data_wire2 clk stb edges d) = Ok (tt, d2) /\
     bitcount d2 = 8 /\ databyte d2 = value /\
     forall n8 ack, exists ptype,
       In (out_python (ss_byte d2) n8 ptype (PByte value))
          (snd (at_sample n8 (handle_data_wire2 (clk, ack, stb)) d2))) /\
  (exists d3,
     fst (feed_bits handle_data_wire3 clk stb edges d) = Ok (tt, d3) /\
     bitcount d3 = 8 /\ databyte d3 = value /\
     exists ptype,
       In (out_python (ss_byte d3) (samplenum d3) ptype (PByte value))
          (snd (handle_byte_wire3 d3))) /\
  (forall full,
     8 <= bitcount full -> bits full <> [] -> 0 <= databyte full < 256 ->
     exists d4,
       fst (feed_bits handle_data_wire3 clk stb edges full) = Ok (tt, d4) /\
       bitcount d4 = 8 /\ databyte d4 = value).
Proof.
  intros edges value. subst edges.
  pose proof (eight_shifts_lsb_first b0 b1 b2 b3 b4 b5 b6 b7) as Hval.
  cbn zeta in Hval. fold value in Hval. clearbody value.
  destruct d as [? ? ? ? ? ? ? ? ? bc db bs ? ? ? ?].
  cbn in Hcount, Hbyte, Hbits. subst bc db bs.
  split; [|split].
  - eexists. split; [run_method; reflexivity|].
    split; [reflexivity|]. split; [exact Hval|].
    intros n8 ack. eexists. run_method.
    right. right. left. cbn [fold_left] in Hval. rewrite Hval. reflexivity.
  - eexists. split; [run_method; reflexivity|].
    split; [reflexivity|]. split; [exact Hval|].
    eexists. run_method.
    do 9 right. left. cbn [fold_left] in Hval. rewrite Hval. reflexivity.
  - intros full Hfull Hne Hbyte.
    destruct full as [x_ss x_es x_ss_byte x_ss_ack x_rate x_start x_pdu_bits
                      x_bus x_bytecount x_bitcount x_databyte x_bits x_state
                      x_samplenum x_matched x_radix].
    cbn [bitcount bits databyte] in Hfull, Hne, Hbyte.
    destruct x_bits as [| b rest]; [contradiction|].
    unfold feed_bits. cbn [for_each fst snd]. unfold at_sample at 1.
    rewrite bind_assoc, bind_modify. cbn [set_samplenum].
    erewrite bind_fst_ok
      by (apply handle_data_wire3_on_full_buffer; assumption).
    eexists. split; [run_method; reflexivity|].
    split; [reflexivity | exact Hval].
Qed.

Lemma byte_assembled_lsb_first_witness :
  bitcount (new_decoder (Some 1000000) "Hex") = 0 /\
  databyte (new_decoder (Some 1000000) "Hex") = 0 /\
  bits (new_decoder (Some 1000000) "Hex") = [] /\
  exists d2,
    fst (feed_bits handle_data_wire2 1 0
           [(20, true); (30, false); (40, true); (50, true);
            (60, false); (70, false); (80, false); (90, false)]
           (new_decoder (Some 1000000) "Hex")) =
      Ok (tt, d2) /\
    databyte d2 = 13.
Proof.
  repeat split.
  destruct (byte_assembled_lsb_first 1 0 true false true true false false
              false false 20 30 40 50 60 70 80 90
              (new_decoder (Some 1000000) "Hex")
              eq_refl eq_refl eq_refl)
    as ((d2 & Hrun & _ & Hval & _) & _).
  exists d2. split; [exact Hrun | exact Hval].
Defined.

(* ###################################################################### *)
(** * C7: the per-bit annotations of the two-wire bus *)

Lemma lsb_first_byte (b0 b1 b2 b3 b4 b5 b6 b7 : bool) :
  py_bytes1 (lsb_first b0 b1 b2 b3 b4 b5 b6 b7) =
    Ok [lsb_first b0 b1 b2 b3 b4 b5 b6 b7].
Proof. destruct b0, b1, b2, b3, b4, b5, b6, b7; reflexivity. Qed.

(** Nine clock edges on the two-wire bus from a cleared accumulator:
    eight data bits and the acknowledge slot. *)
Lemma wire2_nine_edges
      (clk stb : Z) (b0 b1 b2 b3 b4 b5 b6 b7 ack : bool)
      (n0 n1 n2 n3 n4 n5 n6 n7 n8 : Z)
      (x_ss x_es x_ss_byte x_ss_ack : Z) (x_rate x_start : option Z)
      (x_pdu_bits : Z) (x_bus : option bus) (x_bytecount : Z)
      (x_state : dstate) (x_samplenum : Z) (x_matched : list bool)
      (x_radix : string) :
  let value := lsb_first b0 b1 b2 b3 b4 b5 b6 b7 in
  let cmd := if x_bytecount =? 0 then COMMAND else DATA in
  feed_bits handle_data_wire2 clk stb
    [(n0, b0); (n1, b1); (n2, b2); (n3, b3); (n4, b4);
     (n5, b5); (n6, b6); (n7, b7); (n8, ack)]
    (mkDecoder x_ss x_es x_ss_byte x_ss_ack x_rate x_start x_pdu_bits x_bus
               x_bytecount 0 0 [] x_state x_samplenum x_matched x_radix) =
  (Ok (tt,
       mkDecoder x_ss_byte n8 x_ss_byte n8 x_rate x_start x_pdu_bits x_bus
                 (x_bytecount + 1) 0 0 [] FIND_ACK n8 x_matched x_radix),
   [out_ann n0 n1 BIT (bit_text b0);
    out_ann n1 n2 BIT (bit_text b1);
    out_ann n2 n3 BIT (bit_text b2);
    out_ann n3 n4 BIT (bit_text b3);
    out_ann n4 n5 BIT (bit_text b4);
    out_ann n5 n6 BIT (bit_text b5);
    out_ann n6 n7 BIT (bit_text b6);
    out_ann n7 n8 BIT (bit_text b7);
    out_python x_ss_byte n8 "BITS"
      (PBits [Bit (Z.b2z b0) n0 n1; Bit (Z.b2z b1) n1 n2;
              Bit (Z.b2z b2) n2 n3; Bit (Z.b2z b3) n3 n4;
              Bit (Z.b2z b4) n4 n5; Bit (Z.b2z b5) n5 n6;
              Bit (Z.b2z b6) n6 n7; Bit (Z.b2z b7) n7 n8]);
    out_python x_ss_byte n8 (commands cmd) (PByte value);
    out_binary x_ss_byte n8 AnnBinary_DATA [value];
    out_ann x_ss_byte n8 cmd
      (compose_annot (ArgList (protocol cmd))
                     (ArgStr (format_data value x_radix)) ArgNone ArgNone)]).
Proof.
  destruct b0, b1, b2, b3, b4, b5, b6, b7;
    lazy -[PyStr.str_int compose_annot format_data]; reflexivity.
Qed.


(** C7: on a clock rising edge of the two-wire bus at which a previous
    bit exists, the data handler sets the end sample of that bit to the
    current sample, and emits the annotation of that bit, over its start
    and end samples, if and only if [self.bitcount] is at most 8 then;
    so the eight data bits of a byte each get their annotation and the
    bit of the acknowledge slot gets none. *)
Theorem wire2_bit_annotation_boundary
        (clk dio stb : Z) (d : decoder) (prev : bit) (rest : list bit)
        (Hbits : bits d = prev :: rest) (Hcount : 1 <= bitcount d) :
  let n := samplenum d in
  let closed := Bit (bit_val prev) (bit_ss prev) n in
  let note := out_ann (bit_ss prev) n BIT [PyStr.str_int (bit_val prev)] in
  let out := snd (handle_data_wire2 (clk, dio, stb) d) in
  (bitcount d <= 8 ->
   exists out', out = note :: out' /\ filter is_bit_annotation out' = []) /\
  (8 < bitcount d -> filter is_bit_annotation out = []) /\
  (bitcount d < 8 ->
   exists d',
     fst (handle_data_wire2 (clk, dio, stb) d) = Ok (tt, d') /\
     bits d' = Bit dio n n :: closed :: rest) /\
  (8 <= bitcount d ->
   In (out_python (ss_byte d) n "BITS"
         (PBits (rev (last_n 8 (Bit dio n n :: closed :: rest))))) out) /\
  (forall (b0 b1 b2 b3 b4 b5 b6 b7 ack next : bool)
          (n0 n1 n2 n3 n4 n5 n6 n7 n8 n9 : Z) (d0 : decoder),
     bitcount d0 = 0 -> databyte d0 = 0 -> bits d0 = [] ->
     filter is_bit_annotation
       (snd (feed_bits handle_data_wire2 clk stb
               [(n0, b0); (n1, b1); (n2, b2); (n3, b3); (n4, b4);
                (n5, b5); (n6, b6); (n7, b7); (n8, ack); (n9, next)] d0)) =
       [out_ann n0 n1 BIT (bit_text b0);
        out_ann n1 n2 BIT (bit_text b1);
        out_ann n2 n3 BIT (bit_text b2);
        out_ann n3 n4 BIT (bit_text b3);
        out_ann n4 n5 BIT (bit_text b4);
        out_ann n5 n6 BIT (bit_text b5);
        out_ann n6 n7 BIT (bit_text b6);
        out_ann n7 n8 BIT (bit_text b7)]).
Proof.
  intros n closed note out. subst n closed note out.
  destruct d as [x_ss x_es x_ss_byte x_ss_ack x_rate x_start x_pdu_bits x_bus
                 byc bc db bs x_state sn x_matched x_radix].
  cbn in Hbits, Hcount. subst bs. cbn [samplenum bitcount ss_byte].
  assert ((0 <? bc) = true) as Hpos by (apply Z.ltb_lt; lia).
  repeat split.
  - intros Hle. assert ((bc <=? 8) = true) as Hle' by (apply Z.leb_le; lia).
    run_sym. rewrite Hpos. run_sym. rewrite Hle'. run_sym.
    eexists. split; [reflexivity|].
    destruct (bc + 1 <=? 8); run_sym; [reflexivity|].
    destruct (py_bytes1 db); run_sym; [destruct (byc =? 0)|]; reflexivity.
  - intros Hgt. assert ((bc <=? 8) = false) as Hgt' by (apply Z.leb_gt; lia).
    assert ((bc + 1 <=? 8) = false) as Hgt2 by (apply Z.leb_gt; lia).
    run_sym. rewrite Hpos. run_sym. rewrite Hgt'. run_sym.
    rewrite Hgt2. run_sym.
    destruct (py_bytes1 db); run_sym; [destruct (byc =? 0)|]; reflexivity.
  - intros Hlt. assert ((bc <=? 8) = true) as Hle' by (apply Z.leb_le; lia).
    assert ((bc + 1 <=? 8) = true) as Hle2 by (apply Z.leb_le; lia).
    run_sym. rewrite Hpos. run_sym. rewrite Hle'. run_sym.
    rewrite Hle2. run_sym.
    eexists. split; reflexivity.
  - intros Hge. assert ((bc + 1 <=? 8) = false) as Hgt2 by (apply Z.leb_gt; lia).
    run_sym. rewrite Hpos. run_sym.
    destruct (bc <=? 8); run_sym; rewrite Hgt2; run_sym;
      [right|]; left; reflexivity.
  - intros b0 b1 b2 b3 b4 b5 b6 b7 ack next n0 n1 n2 n3 n4 n5 n6 n7 n8 n9 d0
           Hc0 Hd0 Hb0.
    destruct d0 as [y_ss y_es y_ss_byte y_ss_ack y_rate y_start y_pdu_bits
                    y_bus byc0 bc0 db0 bs0 y_state y_sn y_matched y_radix].
    cbn in Hc0, Hd0, Hb0. subst bc0 db0 bs0.
    change [(n0, b0); (n1, b1); (n2, b2); (n3, b3); (n4, b4); (n5, b5);
            (n6, b6); (n7, b7); (n8, ack); (n9, next)]
      with ([(n0, b0); (n1, b1); (n2, b2); (n3, b3); (n4, b4); (n5, b5);
             (n6, b6); (n7, b7); (n8, ack)] ++ [(n9, next)]).
    rewrite feed_bits_app.
    rewrite (bind_ok _ _ _ _ _ _
               (wire2_nine_edges clk stb b0 b1 b2 b3 b4 b5 b6 b7 ack
                  n0 n1 n2 n3 n4 n5 n6 n7 n8
                  y_ss y_es y_ss_byte y_ss_ack y_rate y_start y_pdu_bits
                  y_bus byc0 y_state y_sn y_matched y_radix)).
    cbn [snd]. rewrite filter_app.
    destruct (byc0 =? 0);
      lazy -[PyStr.str_int compose_annot format_data bit_text]; reflexivity.
Qed.

Lemma wire2_bit_annotation_boundary_witness :
  bits second_edge_state = [Bit 1 20 20] /\
  1 <= bitcount second_edge_state /\
  exists out',
    snd (handle_data_wire2 (1, 0, 0) second_edge_state) =
      out_ann 20 30 BIT ["1"] :: out' /\
    filter is_bit_annotation out' = [].
Proof.
  split; [reflexivity|]. split; [discriminate|].
  apply (wire2_bit_annotation_boundary 1 0 0 second_edge_state
           (Bit 1 20 20) [] eq_refl).
  - discriminate.
  - discriminate.
Defined.

(* ###################################################################### *)
(** * C9 and C3: what the stop handlers do with the pending bits *)

(** The bit rate computation on a capture: no exception, no change of
    the decoder, and at most the metric as output. *)
Lemma handle_bitrate_total (d : decoder) :
  timing_in_range d ->
  exists metric,
    handle_bitrate d = (Ok (tt, d), metric) /\
    (metric = [] \/
     exists v, metric = [out_bitrate (ss_byte d) (samplenum d) v]).
Proof.
  intros (rate & start & Hr & Hs & Hrate & Hstart & Hn & Hbits).
  destruct (handle_bitrate_spec d rate start Hr Hs Hrate) as
    (one & fr & e0 & fk & _ & _ & _ & _ & [(_ & _ & H) | (_ & _ & H)]);
    [lia | lia | |].
  - exists []. auto.
  - destruct H as (q & fb & v & _ & _ & _ & _ & H).
    eexists. split; [exact H|]. right. eauto.
Qed.

(** C9: a stop on the two-wire bus emits no COMMAND, DATA or BITS
    packet for the bits accumulated so far, however many: it produces
    the bit rate metric (if any) and the STOP packets only, and clears
    the bit buffer, the bit count and the byte value; the stop handler
    of the three-wire bus, on the same decoder, flushes the pending bits
    as a byte event. *)
Theorem wire2_stop_discards_partial_byte
        (d : decoder) (Hrange : timing_in_range d) :
  let n := samplenum d in
  exists d' metric,
    handle_stop_wire2 d =
      (Ok (tt, d'),
       metric ++ [out_python n n "STOP" PNone;
                  out_ann n n STOP ["Stop"; "P"]]) /\
    (metric = [] \/ exists v, metric = [out_bitrate (ss_byte d) n v]) /\
    filter is_data_packet (snd (handle_stop_wire2 d)) = [] /\
    bitcount d' = 0 /\ databyte d' = 0 /\ bits d' = [] /\
    state d' = FIND_START /\
    (bits d <> [] ->
     exists ptype,
       In (out_python (ss_byte d) n ptype (PByte (databyte d)))
          (snd (handle_stop_wire3 d))).
Proof.
  intros n. subst n.
  destruct (handle_bitrate_total d Hrange) as (metric & Hbr & Hmetric).
  destruct d as [x_ss x_es x_ss_byte x_ss_ack x_rate x_start x_pdu_bits x_bus
                 byc bc db bs x_state sn x_matched x_radix].
  cbn [samplenum ss_byte databyte bits] in *.
  assert (handle_stop_wire2
            (mkDecoder x_ss x_es x_ss_byte x_ss_ack x_rate x_start x_pdu_bits
                       x_bus byc bc db bs x_state sn x_matched x_radix) =
          (Ok (tt, mkDecoder sn sn x_ss_byte x_ss_ack x_rate x_start
                             x_pdu_bits x_bus byc 0 0 [] FIND_START sn
                             x_matched x_radix),
           metric ++ [out_python sn sn "STOP" PNone;
                      out_ann sn sn STOP ["Stop"; "P"]])) as Hstop.
  { unfold handle_stop_wire2. rewrite (bind_ok _ _ _ _ _ _ Hbr).
    run_sym. reflexivity. }
  do 2 eexists. split; [exact Hstop|]. split; [exact Hmetric|].
  rewrite Hstop. cbn [snd].
  split.
  { rewrite filter_app. destruct Hmetric as [-> | [v ->]]; reflexivity. }
  repeat split.
  intros Hne. destruct bs as [| b0 rest]; [contradiction|].
  unfold handle_stop_wire3. rewrite (bind_ok _ _ _ _ _ _ Hbr).
  cbn [snd]. eexists. apply in_or_app. right.
  unfold handle_byte_wire3. mrun. cbn [bits samplenum]. mrun.
  cbn [bits set_bits].
  rewrite (bind_ok _ _ _ _ _ _ (for_each_put _ _ _)).
  cbn [snd]. apply in_or_app. right.
  run_sym. destruct (py_bytes1 db); run_sym; right; left; reflexivity.
Qed.

Lemma wire2_stop_discards_partial_byte_witness :
  timing_in_range stop_state /\
  exists d' metric,
    handle_stop_wire2 stop_state =
      (Ok (tt, d'),
       metric ++ [out_python 200 200 "STOP" PNone;
                  out_ann 200 200 STOP ["Stop"; "P"]]) /\
    filter is_data_packet (snd (handle_stop_wire2 stop_state)) = [].
Proof.
  assert (timing_in_range stop_state) as H.
  { exists 1000000, 10. repeat split; try reflexivity; discriminate. }
  split; [exact H|].
  destruct (wire2_stop_discards_partial_byte stop_state H)
    as (d' & metric & Hstop & _ & Hnone & _).
  exists d', metric. split; [exact Hstop | exact Hnone].
Defined.

(* ###################################################################### *)
(** * C3: the byte flushed by the three-wire stop *)

(** A three-wire START and eight clock edges: the START packets are
    the only output, and the eight bits wait in the buffer. *)
Lemma wire3_start_and_eight_edges
      (clk stb : Z) (clk_high dio_falls : bool) (p0 : pins)
      (b0 b1 b2 b3 b4 b5 b6 b7 : bool)
      (n0 n1 n2 n3 n4 n5 n6 n7 n8 : Z)
      (x_ss x_es x_ss_byte x_ss_ack : Z) (x_rate x_start : option Z)
      (x_pdu_bits : Z) (x_bus : option bus)
      (x_bytecount x_bitcount x_databyte : Z) (x_bits : list bit)
      (x_samplenum : Z) (x_matched : list bool) (x_radix : string) :
  run [strobe_falls n0 clk_high dio_falls p0;
       clock_rises n1 clk b0 stb; clock_rises n2 clk b1 stb;
       clock_rises n3 clk b2 stb; clock_rises n4 clk b3 stb;
       clock_rises n5 clk b4 stb; clock_rises n6 clk b5 stb;
       clock_rises n7 clk b6 stb; clock_rises n8 clk b7 stb]
      (mkDecoder x_ss x_es x_ss_byte x_ss_ack x_rate x_start x_pdu_bits x_bus
                 x_bytecount x_bitcount x_databyte x_bits FIND_START
                 x_samplenum x_matched x_radix) =
  (Ok (tt,
       mkDecoder n0 n0 n1 x_ss_ack x_rate (Some n0) 8 (Some wire3) 0 8
                 (lsb_first b0 b1 b2 b3 b4 b5 b6 b7)
                 [Bit (Z.b2z b7) n8 n8; Bit (Z.b2z b6) n7 n8;
                  Bit (Z.b2z b5) n6 n7; Bit (Z.b2z b4) n5 n6;
                  Bit (Z.b2z b3) n4 n5; Bit (Z.b2z b2) n3 n4;
                  Bit (Z.b2z b1) n2 n3; Bit (Z.b2z b0) n1 n2]
                 FIND_DATA n8 [false; false; true] x_radix),
   [out_python n0 n0 "START" PNone; out_ann n0 n0 START ["Start"; "S"]]).
Proof.
  destruct clk_high, dio_falls, b0, b1, b2, b3, b4, b5, b6, b7;
    lazy -[PyStr.str_int compose_annot format_data]; reflexivity.
Qed.

(** The three-wire stop handler on that buffer. *)
Lemma wire3_stop_flushes
      (b0 b1 b2 b3 b4 b5 b6 b7 : bool)
      (n1 n2 n3 n4 n5 n6 n7 n8 n9 : Z)
      (x_ss x_es x_ss_byte x_ss_ack : Z) (x_rate x_start : option Z)
      (x_pdu_bits : Z) (x_bus : option bus)
      (x_state : dstate) (x_matched : list bool) (x_radix : string) :
  let value := lsb_first b0 b1 b2 b3 b4 b5 b6 b7 in
  let d :=
    mkDecoder x_ss x_es x_ss_byte x_ss_ack x_rate x_start x_pdu_bits x_bus
              0 8 value
              [Bit (Z.b2z b7) n8 n8; Bit (Z.b2z b6) n7 n8;
               Bit (Z.b2z b5) n6 n7; Bit (Z.b2z b4) n5 n6;
               Bit (Z.b2z b3) n4 n5; Bit (Z.b2z b2) n3 n4;
               Bit (Z.b2z b1) n2 n3; Bit (Z.b2z b0) n1 n2]
              x_state n9 x_matched x_radix in
  timing_in_range d ->
  exists metric,
    (metric = [] \/ exists v, metric = [out_bitrate x_ss_byte n9 v]) /\
    handle_stop_wire3 d =
      (Ok (tt,
           mkDecoder n9 n9 x_ss_byte x_ss_ack x_rate x_start x_pdu_bits
                     x_bus 1 0 0 [] FIND_START n9 x_matched x_radix),
       metric ++
       [out_ann n8 n9 BIT (bit_text b7); out_ann n7 n8 BIT (bit_text b6);
        out_ann n6 n7 BIT (bit_text b5); out_ann n5 n6 BIT (bit_text b4);
        out_ann n4 n5 BIT (bit_text b3); out_ann n3 n4 BIT (bit_text b2);
        out_ann n2 n3 BIT (bit_text b1); out_ann n1 n2 BIT (bit_text b0);
        out_python x_ss_byte n9 "BITS"
          (PBits [Bit (Z.b2z b0) n1 n2; Bit (Z.b2z b1) n2 n3;
                  Bit (Z.b2z b2) n3 n4; Bit (Z.b2z b3) n4 n5;
                  Bit (Z.b2z b4) n5 n6; Bit (Z.b2z b5) n6 n7;
                  Bit (Z.b2z b6) n7 n8; Bit (Z.b2z b7) n8 n9]);
        out_python x_ss_byte n9 "COMMAND" (PByte value);
        out_binary x_ss_byte n9 AnnBinary_DATA [value];
        out_ann x_ss_byte n9 COMMAND
          (compose_annot (ArgList (protocol COMMAND))
                         (ArgStr (format_data value x_radix))
                         ArgNone ArgNone);
        out_python n9 n9 "STOP" PNone;
        out_ann n9 n9 STOP ["Stop"; "P"]]).
Proof.
  intros value d Hrange.
  destruct (handle_bitrate_total d Hrange) as (metric & Hbr & Hmetric).
  exists metric. split; [exact Hmetric|].
  unfold handle_stop_wire3. rewrite (bind_ok _ _ _ _ _ _ Hbr).
  pose proof (lsb_first_byte b0 b1 b2 b3 b4 b5 b6 b7) as Hraw.
  fold value in Hraw. clearbody value. subst d.
  lazy -[PyStr.str_int compose_annot format_data py_bytes1 app].
  rewrite Hraw.
  lazy -[PyStr.str_int compose_annot format_data py_bytes1 app bit_text].
  reflexivity.
Qed.

(** C3: a three-wire session with exactly eight clock rising edges
    after the START and then the strobe rising emits exactly one byte
    event; nothing but the START is emitted before the stop, and the
    stop handler flushes the byte, with the value of the eight bits,
    before the STOP packets. *)
Theorem three_wire_flush_on_stop
        (d : decoder) (rate : Z)
        (clk stb : Z) (clk_high dio_falls m1 m2 : bool) (p0 p9 : pins)
        (b0 b1 b2 b3 b4 b5 b6 b7 : bool)
        (n0 n1 n2 n3 n4 n5 n6 n7 n8 n9 : Z)
        (Hstate : state d = FIND_START)
        (Hrate : samplerate d = Some rate)
        (Hrange : 0 < rate < 2 ^ 64)
        (Hsamples : 0 <= n0 < n9 /\ n9 < 2 ^ 64) :
  let value := lsb_first b0 b1 b2 b3 b4 b5 b6 b7 in
  let before :=
    [strobe_falls n0 clk_high dio_falls p0;
     clock_rises n1 clk b0 stb; clock_rises n2 clk b1 stb;
     clock_rises n3 clk b2 stb; clock_rises n4 clk b3 stb;
     clock_rises n5 clk b4 stb; clock_rises n6 clk b5 stb;
     clock_rises n7 clk b6 stb; clock_rises n8 clk b7 stb] in
  let stop := strobe_rises n9 m1 m2 p9 in
  exists d' metric,
    (metric = [] \/ exists v, metric = [out_bitrate n1 n9 v]) /\
    run (before ++ [stop]) d =
      (Ok (tt, d'),
       [out_python n0 n0 "START" PNone; out_ann n0 n0 START ["Start"; "S"]]
       ++ metric ++
       [out_ann n8 n9 BIT (bit_text b7); out_ann n7 n8 BIT (bit_text b6);
        out_ann n6 n7 BIT (bit_text b5); out_ann n5 n6 BIT (bit_text b4);
        out_ann n4 n5 BIT (bit_text b3); out_ann n3 n4 BIT (bit_text b2);
        out_ann n2 n3 BIT (bit_text b1); out_ann n1 n2 BIT (bit_text b0);
        out_python n1 n9 "BITS"
          (PBits [Bit (Z.b2z b0) n1 n2; Bit (Z.b2z b1) n2 n3;
                  Bit (Z.b2z b2) n3 n4; Bit (Z.b2z b3) n4 n5;
                  Bit (Z.b2z b4) n5 n6; Bit (Z.b2z b5) n6 n7;
                  Bit (Z.b2z b6) n7 n8; Bit (Z.b2z b7) n8 n9]);
        out_python n1 n9 "COMMAND" (PByte value);
        out_binary n1 n9 AnnBinary_DATA [value];
        out_ann n1 n9 COMMAND
          (compose_annot (ArgList (protocol COMMAND))
                         (ArgStr (format_data value (radix d)))
                         ArgNone ArgNone);
        out_python n9 n9 "STOP" PNone;
        out_ann n9 n9 STOP ["Stop"; "P"]]) /\
    filter is_byte_event (snd (run before d)) = [] /\
    filter is_byte_event (snd (run (before ++ [stop]) d)) =
      [out_python n1 n9 "COMMAND" (PByte value)] /\
    state d' = FIND_START /\ bits d' = [] /\ bytecount d' = 1.
Proof.
  intros value before stop.
  destruct d as [x_ss x_es x_ss_byte x_ss_ack x_rate x_start x_pdu_bits x_bus
                 x_bytecount x_bitcount x_databyte x_bits x_state
                 x_samplenum x_matched x_radix].
  cbn [state samplerate radix] in *. subst x_state x_rate.
  pose proof (wire3_start_and_eight_edges clk stb clk_high dio_falls p0
                b0 b1 b2 b3 b4 b5 b6 b7 n0 n1 n2 n3 n4 n5 n6 n7 n8
                x_ss x_es x_ss_byte x_ss_ack (Some rate) x_start x_pdu_bits
                x_bus x_bytecount x_bitcount x_databyte x_bits x_samplenum
                x_matched x_radix) as Hbefore.
  fold before value in Hbefore.
  destruct (wire3_stop_flushes b0 b1 b2 b3 b4 b5 b6 b7
              n1 n2 n3 n4 n5 n6 n7 n8 n9 n0 n0 n1 x_ss_ack (Some rate)
              (Some n0) 8 (Some wire3) FIND_DATA [true; m1; m2] x_radix)
    as (metric & Hmetric & Hstop).
  { exists rate, n0. cbn [samplerate pdu_start samplenum pdu_bits].
    repeat split; try lia; reflexivity. }
  fold value in Hstop.
  assert (run [stop]
              (mkDecoder n0 n0 n1 x_ss_ack (Some rate) (Some n0) 8
                 (Some wire3) 0 8 value
                 [Bit (Z.b2z b7) n8 n8; Bit (Z.b2z b6) n7 n8;
                  Bit (Z.b2z b5) n6 n7; Bit (Z.b2z b4) n5 n6;
                  Bit (Z.b2z b3) n4 n5; Bit (Z.b2z b2) n3 n4;
                  Bit (Z.b2z b1) n2 n3; Bit (Z.b2z b0) n1 n2]
                 FIND_DATA n8 [false; false; true] x_radix) =
          handle_stop_wire3
              (mkDecoder n0 n0 n1 x_ss_ack (Some rate) (Some n0) 8
                 (Some wire3) 0 8 value
                 [Bit (Z.b2z b7) n8 n8; Bit (Z.b2z b6) n7 n8;
                  Bit (Z.b2z b5) n6 n7; Bit (Z.b2z b4) n5 n6;
                  Bit (Z.b2z b3) n4 n5; Bit (Z.b2z b2) n3 n4;
                  Bit (Z.b2z b1) n2 n3; Bit (Z.b2z b0) n1 n2]
                 FIND_DATA n9 [true; m1; m2] x_radix)) as Hdispatch.
  { subst stop.
    unfold run, strobe_rises, on_wait, loop_body, matched_at, handle_stop.
    repeat (mrun;
            cbn [for_each w_samplenum w_matched w_pins set_samplenum
                 set_matched state matched bustype nth_error]).
    apply bind_ret_tt. }
  rewrite Hstop in Hdispatch.
  rewrite run_app, (bind_ok _ _ _ _ _ _ Hbefore), Hbefore, Hdispatch.
  cbn [fst snd].
  do 2 eexists. split; [exact Hmetric|]. split; [reflexivity|].
  split; [reflexivity|]. split; [|repeat split].
  rewrite !filter_app. destruct Hmetric as [-> | [v ->]]; reflexivity.
Qed.

Lemma three_wire_flush_on_stop_witness :
  state (new_decoder (Some 1000000) "Hex") = FIND_START /\
  samplerate (new_decoder (Some 1000000) "Hex") = Some 1000000 /\
  0 < 1000000 < 2 ^ 64 /\
  (0 <= 10 < 100 /\ 100 < 2 ^ 64) /\
  filter is_byte_event
    (snd (run ([strobe_falls 10 true false (1, 1, 0);
                clock_rises 20 1 true 0; clock_rises 30 1 false 0;
                clock_rises 40 1 true 0; clock_rises 50 1 true 0;
                clock_rises 60 1 false 0; clock_rises 70 1 false 0;
                clock_rises 80 1 false 0; clock_rises 90 1 false 0]
               ++ [strobe_rises 100 false false (0, 0, 1)])
              (new_decoder (Some 1000000) "Hex"))) =
    [out_python 20 100 "COMMAND" (PByte 13)].
Proof.
  assert (0 < 1000000 < 2 ^ 64) as Hr by (split; reflexivity).
  assert (0 <= 10 < 100 /\ 100 < 2 ^ 64) as Hs
      by (repeat split; try reflexivity; discriminate).
  split; [reflexivity|]. split; [reflexivity|].
  split; [exact Hr|]. split; [exact Hs|].
  destruct (three_wire_flush_on_stop
              (new_decoder (Some 1000000) "Hex") 1000000 1 0
              true false false false (1, 1, 0) (0, 0, 1)
              true false true true false false false false
              10 20 30 40 50 60 70 80 90 100
              eq_refl eq_refl Hr Hs)
    as (d' & metric & _ & _ & _ & Hone & _).
  exact Hone.
Defined.

(* ###################################################################### *)
(** * C5: the bit rate metric *)

(** For 29 bits in 58 sample periods at 1 MHz the formula of the
    specification gives 500000, in exact and in binary64 arithmetic,
    and the code emits 499999: in the stop handler, and at the end of a
    three-wire capture with that timing. *)
Lemma bitrate_is_not_the_exact_quotient :
  handle_bitrate bitrate_rounding_state =
    (Ok (tt, bitrate_rounding_state), [out_bitrate 1 59 499999]) /\
  spec_bitrate 1000000 0 59 29 = 500000 /\
  spec_bitrate_float 1000000 0 59 29 = Ok 500000 /\
  ~ In (out_bitrate 1 59 (spec_bitrate 1000000 0 59 29))
       (snd (handle_bitrate bitrate_rounding_state)) /\
  filter is_metric
    (snd (decode three_wire_host rounding_capture scenario_decoder)) =
    [out_bitrate 50 60 499999] /\
  spec_bitrate 1000000 1 60 29 = 500000 /\
  spec_bitrate_float 1000000 1 60 29 = Ok 500000.
Proof.
  repeat split; try (vm_compute; reflexivity).
  vm_compute. intros [H | []]. discriminate H.
Qed.

(** C5, as the code has it: on a stop of a capture, [elapsed] is the
    binary64 product of [1 / float(samplerate)] and the sample count
    [samplenum - pdu_start - 1]; when the count is zero [elapsed] is
    zero, nothing is emitted and nothing raised; otherwise [elapsed] is
    not zero and one metric is emitted, from [ss_byte] to the current
    sample, whose value is the integer part of the binary64 product of
    [1 / elapsed] and [pdu_bits]; the example of the specification gives
    80000. *)
Theorem bitrate_metric (d : decoder) (Hrange : timing_in_range d) :
  (exists rate start one frate period fcount,
     samplerate d = Some rate /\ pdu_start d = Some start /\
     PyFloat.of_int 1 = Ok one /\
     PyFloat.of_int rate = Ok frate /\
     PyFloat.div one frate = Ok period /\
     PyFloat.of_int (samplenum d - start - 1) = Ok fcount /\
     let elapsed := PyFloat.mul period fcount in
     ((samplenum d - start - 1 = 0 /\
       PyFloat.truthy elapsed = false /\
       handle_bitrate d = (Ok (tt, d), []))
      \/
      (0 < samplenum d - start - 1 /\
       PyFloat.truthy elapsed = true /\
       exists q fbits v,
         PyFloat.div one elapsed = Ok q /\
         PyFloat.of_int (pdu_bits d) = Ok fbits /\
         PyFloat.to_int (PyFloat.mul q fbits) = Ok v /\
         0 <= v /\
         handle_bitrate d =
           (Ok (tt, d), [out_bitrate (ss_byte d) (samplenum d) v])))) /\
  handle_bitrate bitrate_example_state =
    (Ok (tt, bitrate_example_state), [out_bitrate 1 1001 80000]).
Proof.
  split; [| vm_compute; reflexivity].
  destruct Hrange as (rate & start & Hr & Hs & Hrate & Hstart & Hn & Hbits).
  destruct (handle_bitrate_spec d rate start Hr Hs Hrate) as
    (one & fr & e0 & fk & H1 & H2 & H3 & H4 & H); [lia | lia |].
  exists rate, start, one, fr, e0, fk. cbn zeta.
  repeat (split; [assumption|]). exact H.
Qed.

Lemma bitrate_metric_witness :
  timing_in_range bitrate_example_state /\
  handle_bitrate bitrate_example_state =
    (Ok (tt, bitrate_example_state), [out_bitrate 1 1001 80000]).
Proof.
  assert (timing_in_range bitrate_example_state) as H.
  { exists 1000000, 0. repeat split; try reflexivity; discriminate. }
  split; [exact H|].
  exact (proj2 (bitrate_metric bitrate_example_state H)).
Defined.

(* ###################################################################### *)
(** * C2: the two-wire scenario *)

(** The scenario as the specification gives it, with eight clock edges
    before the clock falls at 95: no byte is complete when the stop
    comes, so that no COMMAND and no ACK is emitted, and the metric
    spans [[20, 200]].  When the clock comes back high at 150, before
    the data rises, that ninth edge completes the byte over [[20, 150]]
    and the decoder then waits for the clock to fall: no ACK, no STOP. *)
Lemma scenario_with_eight_edges_has_no_command :
  decode two_wire_host scenario scenario_decoder =
    (Ok (tt, mkDecoder 200 200 20 (-1) (Some 1000000) (Some 10) 8
                       (Some wire2) 0 0 0 [] FIND_START 200
                       [false; true; true] "Hex"),
     [out_python 10 10 "START" PNone; out_ann 10 10 START ["Start"; "S"];
      out_ann 20 30 BIT ["1"]; out_ann 30 40 BIT ["0"];
      out_ann 40 50 BIT ["1"]; out_ann 50 60 BIT ["1"];
      out_ann 60 70 BIT ["0"]; out_ann 70 80 BIT ["0"];
      out_ann 80 90 BIT ["0"]; out_bitrate 20 200 42328;
      out_python 200 200 "STOP" PNone; out_ann 200 200 STOP ["Stop"; "P"]]) /\
  ~ In (out_python 20 90 "COMMAND" (PByte 13))
       (snd (decode two_wire_host scenario scenario_decoder)) /\
  ~ In (out_python 90 95 "ACK" PNone)
       (snd (decode two_wire_host scenario scenario_decoder)) /\
  (forall v,
     ~ In (out_bitrate 10 200 v)
          (snd (decode two_wire_host scenario scenario_decoder))) /\
  decode two_wire_host scenario_late scenario_decoder =
    (Ok (tt, mkDecoder 20 150 20 150 (Some 1000000) (Some 10) 9
                       (Some wire2) 1 0 0 [] FIND_ACK 150
                       [false; false; true] "Hex"),
     [out_python 10 10 "START" PNone; out_ann 10 10 START ["Start"; "S"];
      out_ann 20 30 BIT ["1"]; out_ann 30 40 BIT ["0"];
      out_ann 40 50 BIT ["1"]; out_ann 50 60 BIT ["1"];
      out_ann 60 70 BIT ["0"]; out_ann 70 80 BIT ["0"];
      out_ann 80 90 BIT ["0"]; out_ann 90 150 BIT ["0"];
      out_python 20 150 "BITS"
        (PBits [Bit 1 20 30; Bit 0 30 40; Bit 1 40 50; Bit 1 50 60;
                Bit 0 60 70; Bit 0 70 80; Bit 0 80 90; Bit 0 90 150]);
      out_python 20 150 "COMMAND" (PByte 13);
      out_binary 20 150 0 [13];
      out_ann 20 150 COMMAND
        ["Command: 0x0d"; "Cmd: 0x0d"; "C: 0x0d"; "Cmd"; "C"]]).
Proof.
  assert (decode two_wire_host scenario scenario_decoder =
    (Ok (tt, mkDecoder 200 200 20 (-1) (Some 1000000) (Some 10) 8
                       (Some wire2) 0 0 0 [] FIND_START 200
                       [false; true; true] "Hex"),
     [out_python 10 10 "START" PNone; out_ann 10 10 START ["Start"; "S"];
      out_ann 20 30 BIT ["1"]; out_ann 30 40 BIT ["0"];
      out_ann 40 50 BIT ["1"]; out_ann 50 60 BIT ["1"];
      out_ann 60 70 BIT ["0"]; out_ann 70 80 BIT ["0"];
      out_ann 80 90 BIT ["0"]; out_bitrate 20 200 42328;
      out_python 200 200 "STOP" PNone; out_ann 200 200 STOP ["Stop"; "P"]]))
    as Hrun by (vm_compute; reflexivity).
  split; [exact Hrun|]. rewrite Hrun. cbn [snd].
  split; [cbn; intuition discriminate|].
  split; [cbn; intuition discriminate|].
  split; [| vm_compute; reflexivity].
  intros v. cbn. intuition discriminate.
Qed.

(** C2, as the code has it: with the ninth clock pulse of the
    acknowledge, rising at a sample [r] between the eighth edge at 90
    and the fall of the clock at 95, the scenario produces a START over
    [[10, 10]], the annotations of the eight bits, a COMMAND byte of
    value 13 over [[20, r]], an ACK over [[r, 95]], the bit rate metric
    and a STOP over [[200, 200]]; the metric spans [[20, 200]], from the
    start of the byte, when the clock is back high at 200 with the data
    rising, and [[190, 200]] when the clock is back high at 190, an
    edge that the data handler takes for the first bit of a byte. *)
Theorem scenario_with_acknowledge_pulse (r : Z) (Hr : 92 <= r <= 94) :
  decode two_wire_host (scenario_ack r 200) scenario_decoder =
    (Ok (tt, mkDecoder 200 200 20 r (Some 1000000) (Some 10) 9
                       (Some wire2) 1 0 0 [] FIND_START 200
                       [false; true; true] "Hex"),
     [out_python 10 10 "START" PNone; out_ann 10 10 START ["Start"; "S"];
      out_ann 20 30 BIT ["1"]; out_ann 30 40 BIT ["0"];
      out_ann 40 50 BIT ["1"]; out_ann 50 60 BIT ["1"];
      out_ann 60 70 BIT ["0"]; out_ann 70 80 BIT ["0"];
      out_ann 80 90 BIT ["0"]; out_ann 90 r BIT ["0"];
      out_python 20 r "BITS"
        (PBits [Bit 1 20 30; Bit 0 30 40; Bit 1 40 50; Bit 1 50 60;
                Bit 0 60 70; Bit 0 70 80; Bit 0 80 90; Bit 0 90 r]);
      out_python 20 r "COMMAND" (PByte 13);
      out_binary 20 r 0 [13];
      out_ann 20 r COMMAND
        ["Command: 0x0d"; "Cmd: 0x0d"; "C: 0x0d"; "Cmd"; "C"];
      out_python r 95 "ACK" PNone; out_ann r 95 ACK ["ACK"; "A"];
      out_bitrate 20 200 47619;
      out_python 200 200 "STOP" PNone; out_ann 200 200 STOP ["Stop"; "P"]]) /\
  snd (decode two_wire_host (scenario_ack r 190) scenario_decoder) =
     [out_python 10 10 "START" PNone; out_ann 10 10 START ["Start"; "S"];
      out_ann 20 30 BIT ["1"]; out_ann 30 40 BIT ["0"];
      out_ann 40 50 BIT ["1"]; out_ann 50 60 BIT ["1"];
      out_ann 60 70 BIT ["0"]; out_ann 70 80 BIT ["0"];
      out_ann 80 90 BIT ["0"]; out_ann 90 r BIT ["0"];
      out_python 20 r "BITS"
        (PBits [Bit 1 20 30; Bit 0 30 40; Bit 1 40 50; Bit 1 50 60;
                Bit 0 60 70; Bit 0 70 80; Bit 0 80 90; Bit 0 90 r]);
      out_python 20 r "COMMAND" (PByte 13);
      out_binary 20 r 0 [13];
      out_ann 20 r COMMAND
        ["Command: 0x0d"; "Cmd: 0x0d"; "C: 0x0d"; "Cmd"; "C"];
      out_python r 95 "ACK" PNone; out_ann r 95 ACK ["ACK"; "A"];
      out_bitrate 190 200 52910;
      out_python 200 200 "STOP" PNone; out_ann 200 200 STOP ["Stop"; "P"]].
Proof.
  assert (r = 92 \/ r = 93 \/ r = 94) as [-> | [-> | ->]] by lia;
    split; vm_compute; reflexivity.
Qed.

Lemma scenario_with_acknowledge_pulse_witness :
  92 <= 93 <= 94 /\
  filter is_byte_event
    (snd (decode two_wire_host (scenario_ack 93 200) scenario_decoder)) =
    [out_python 20 93 "COMMAND" (PByte 13)].
Proof.
  assert (92 <= 93 <= 94) as H by (split; discriminate).
  split; [exact H|].
  rewrite (proj1 (scenario_with_acknowledge_pulse 93 H)). reflexivity.
Defined.

(* ###################################################################### *)
(** * The annotation definitions made by [create_annots] *)

Lemma py_insert_at_end {A} (i : Z) (x : A) (l : list A) :
  Z.of_nat (List.length l) <= i -> py_insert i x l = l ++ [x].
Proof.
  intros Hi. unfold py_insert.
  replace (i <? 0) with false by (symmetry; apply Z.ltb_ge; lia).
  rewrite Z.min_r by assumption. rewrite Nat2Z.id.
  now rewrite firstn_all, skipn_all.
Qed.

Lemma add_annots_in_order (prefix : string) (ann_def : ann_dict) :
  forall annots,
    (forall i kv, nth_error ann_def i = Some kv ->
                  Z.of_nat (List.length annots + i) <= fst kv) ->
    (forall kv, In kv ann_def -> snd kv <> []) ->
    add_annots prefix ann_def annots =
      Ok (annots ++
          map (fun kv => annot_of (prefix, fst kv, snd kv)) ann_def).
Proof.
  induction ann_def as [| [k l] ann_def IH]; intros annots Hk Hl.
  - cbn. now rewrite app_nil_r.
  - cbn [add_annots].
    destruct l as [| first l'].
    { now destruct (Hl (k, []) (or_introl eq_refl)). }
    rewrite py_insert_at_end.
    2:{ specialize (Hk 0%nat (k, first :: l') eq_refl). cbn [fst] in Hk. lia. }
    rewrite IH.
    + rewrite <- app_assoc. reflexivity.
    + intros i kv Hi. specialize (Hk (S i) kv Hi).
      rewrite length_app. cbn [List.length]. lia.
    + intros kv Hin. apply Hl. now right.
Qed.

Lemma create_annots_loop_in_order (annots_dict : list (string * ann_dict)) :
  forall annots,
    (forall i item, nth_error (annot_items annots_dict) i = Some item ->
                    Z.of_nat (List.length annots + i) <= snd (fst item)) ->
    (forall item, In item (annot_items annots_dict) -> snd item <> []) ->
    create_annots_loop annots_dict annots =
      Ok (annots ++ map annot_of (annot_items annots_dict)).
Proof.
  induction annots_dict as [| [prefix ann_def] annots_dict IH];
    intros annots Hk Hl.
  - cbn. now rewrite app_nil_r.
  - cbn [create_annots_loop]. unfold annot_items in Hk, Hl.
    cbn [flat_map fst snd] in Hk, Hl. fold (annot_items annots_dict) in Hk, Hl.
    rewrite add_annots_in_order.
    + rewrite IH.
      * unfold annot_items at 2. cbn [flat_map fst snd].
        fold (annot_items annots_dict).
        rewrite map_app, map_map, <- app_assoc. reflexivity.
      * intros i item Hi. rewrite length_app, length_map.
        specialize (Hk (List.length ann_def + i)%nat item).
        rewrite nth_error_app2 in Hk by (rewrite length_map; lia).
        rewrite length_map in Hk.
        replace (List.length ann_def + i - List.length ann_def)%nat with i
          in Hk by lia.
        specialize (Hk Hi). lia.
      * intros item Hin. apply Hl, in_or_app. now right.
    + intros i kv Hi.
      specialize (Hk i (prefix, fst kv, snd kv)).
      rewrite nth_error_app1 in Hk.
      2:{ rewrite length_map. apply nth_error_Some. congruence. }
      rewrite nth_error_map, Hi in Hk. exact (Hk eq_refl).
    + intros kv Hin.
      apply (Hl (prefix, fst kv, snd kv)), in_or_app. left.
      apply in_map_iff. now exists kv.
Qed.

Lemma add_annots_raises (prefix : string) (ann_def : ann_dict) :
  forall annots e,
    add_annots prefix ann_def annots = Raise e ->
    e = IndexError /\ exists k, In (k, []) ann_def.
Proof.
  induction ann_def as [| [k l] ann_def IH]; intros annots e H.
  - discriminate H.
  - cbn [add_annots] in H. destruct l as [| first l'].
    + injection H as <-. split; [reflexivity|]. exists k. now left.
    + destruct (IH _ _ H) as [-> [k' Hk']]. split; [reflexivity|].
      exists k'. now right.
Qed.

Lemma add_annots_empty_labels (prefix : string) (ann_def : ann_dict) :
  forall annots k,
    In (k, []) ann_def ->
    add_annots prefix ann_def annots = Raise IndexError.
Proof.
  induction ann_def as [| [k l] ann_def IH]; intros annots k0 Hin.
  - destruct Hin.
  - cbn [add_annots]. destruct l as [| first l']; [reflexivity|].
    destruct Hin as [Hin | Hin]; [discriminate Hin|].
    now apply (IH _ k0).
Qed.

Lemma create_annots_loop_empty_labels (annots_dict : list (string * ann_dict)) :
  forall annots item,
    In item (annot_items annots_dict) -> snd item = [] ->
    create_annots_loop annots_dict annots = Raise IndexError.
Proof.
  induction annots_dict as [| [prefix ann_def] annots_dict IH];
    intros annots item Hin Hl.
  - destruct Hin.
  - cbn [create_annots_loop].
    destruct (add_annots prefix ann_def annots) as [annots' | e] eqn:E.
    + unfold annot_items in Hin. cbn [flat_map fst snd] in Hin.
      apply in_app_or in Hin. destruct Hin as [Hin | Hin].
      * apply in_map_iff in Hin. destruct Hin as ([k l] & <- & Hin).
        cbn [snd] in Hl. subst l.
        rewrite (add_annots_empty_labels _ _ _ _ Hin) in E. discriminate E.
      * now apply (IH annots' item).
    + now destruct (add_annots_raises _ _ _ _ E) as [-> _].
Qed.

(** X1: [create_annots] lists the annotation definitions in the order
    of the dictionaries when no index is smaller than the number of
    definitions before it, each named by its prefix and its first label
    in lower case; when the indexes are 0, 1, 2, ... the definition of
    index [k] is at position [k], as the numbers of the annotation
    classes require.  A definition without a label raises IndexError. *)
Theorem create_annots_in_index_order
        (annots_dict : list (string * ann_dict)) :
  let items := annot_items annots_dict in
  ((forall item, In item items -> snd item <> []) ->
   indexes_ascend items ->
   create_annots annots_dict = Ok (map annot_of items)) /\
  ((forall item, In item items -> snd item <> []) ->
   indexes_count items ->
   forall item,
     In item items ->
     exists annots,
       create_annots annots_dict = Ok annots /\
       nth_error annots (Z.to_nat (snd (fst item))) = Some (annot_of item)) /\
  (forall item,
     In item items -> snd item = [] ->
     create_annots annots_dict = Raise IndexError).
Proof.
  cbn zeta.
  assert ((forall item, In item (annot_items annots_dict) -> snd item <> []) ->
          indexes_ascend (annot_items annots_dict) ->
          create_annots annots_dict =
            Ok (map annot_of (annot_items annots_dict))) as Horder.
  { intros Hl Hk. unfold create_annots.
    rewrite create_annots_loop_in_order; [reflexivity | | exact Hl].
    intros i item Hi. cbn [List.length Nat.add]. now apply Hk. }
  split; [exact Horder|]. split.
  - intros Hl Hk item Hin.
    exists (map annot_of (annot_items annots_dict)). split.
    + apply Horder; [exact Hl|].
      intros i it Hi. rewrite (Hk i it Hi). lia.
    + apply In_nth_error in Hin. destruct Hin as [i Hi].
      rewrite (Hk i item Hi), Nat2Z.id, nth_error_map, Hi. reflexivity.
  - intros item Hin Hl. unfold create_annots.
    now apply (create_annots_loop_empty_labels _ _ item).
Qed.

(** The annotations of the decoder: the number of each member of
    [AnnProtocol] is the position of its definition. *)
Lemma create_annots_in_index_order_witness :
  (forall item,
     In item (annot_items [("prot", protocol_items); ("info", info_items)]) ->
     snd item <> []) /\
  indexes_count
    (annot_items [("prot", protocol_items); ("info", info_items)]) /\
  annotations =
    Ok [("prot-start", "Start"); ("prot-stop", "Stop"); ("prot-ack", "ACK");
        ("prot-nack", "NACK"); ("prot-command", "Command");
        ("prot-data", "Data"); ("prot-bit", "Bit");
        ("info-warnings", "Warnings")].
Proof.
  assert (forall item,
     In item (annot_items [("prot", protocol_items); ("info", info_items)]) ->
     snd item <> []) as Hl.
  { intros item Hin. cbn in Hin.
    repeat (destruct Hin as [<- | Hin]; [discriminate|]). destruct Hin. }
  assert (indexes_count
    (annot_items [("prot", protocol_items); ("info", info_items)])) as Hk.
  { intros i item Hi.
    do 8 (destruct i as [| i]; [injection Hi as <-; reflexivity|]).
    destruct i; discriminate Hi. }
  split; [exact Hl|]. split; [exact Hk|].
  unfold annotations.
  rewrite (proj1 (create_annots_in_index_order _) Hl).
  - reflexivity.
  - intros i item Hi. rewrite (Hk i item Hi). lia.
Defined.

(* ###################################################################### *)
(** * The texts composed by [compose_annot] *)

Lemma insert_desc_in (x y : string) (l : list string) :
  In y (PyStr.insert_desc x l) <-> y = x \/ In y l.
Proof.
  induction l as [| z l IH]; cbn [PyStr.insert_desc].
  - cbn. intuition.
  - destruct (_ <? _)%nat; cbn [In]; [rewrite IH|]; intuition.
Qed.

Lemma sort_len_desc_in (y : string) (l : list string) :
  In y (PyStr.sort_len_desc l) <-> In y l.
Proof.
  unfold PyStr.sort_len_desc.
  induction l as [| x l IH]; cbn [fold_right In]; [reflexivity|].
  rewrite insert_desc_in, IH. intuition.
Qed.

Lemma insert_desc_longest_first (x : string) (l : list string) :
  longest_first l -> longest_first (PyStr.insert_desc x l).
Proof.
  induction l as [| z l IH]; intros Hl; cbn [PyStr.insert_desc].
  - cbn. intuition.
  - destruct Hl as [Hz Hl].
    destruct (String.length x <? String.length z)%nat eqn:E.
    + apply Nat.ltb_lt in E. cbn [longest_first]. split; [| now apply IH].
      intros y Hy. apply insert_desc_in in Hy.
      destruct Hy as [-> | Hy]; [lia | now apply Hz].
    + apply Nat.ltb_ge in E. cbn [longest_first]. split; [| now split].
      intros y [<- | Hy]; [exact E|]. specialize (Hz y Hy). lia.
Qed.

Lemma sort_len_desc_longest_first (l : list string) :
  longest_first (PyStr.sort_len_desc l).
Proof.
  unfold PyStr.sort_len_desc.
  induction l as [| x l IH]; cbn [fold_right]; [exact I|].
  now apply insert_desc_longest_first.
Qed.

(** X2: [compose_annot] gives its texts from the longest to the
    shortest, whatever its arguments; with no action, the text of every
    label with every value is among them; and without a value the
    units are not used. *)
Theorem compose_annot_longest_first
        (ann_label ann_value ann_unit ann_action : annot_arg) :
  let annots := compose_annot ann_label ann_value ann_unit ann_action in
  longest_first annots /\
  (forall lbl val,
     arg_list ann_action = [] ->
     In lbl (arg_list ann_label) -> In val (arg_list ann_value) ->
     In (labelled EmptyString lbl val) annots) /\
  (arg_list ann_value = [] ->
   forall other_unit,
     compose_annot ann_label ann_value other_unit ann_action = annots).
Proof.
  cbn zeta. split; [| split].
  - apply sort_len_desc_longest_first.
  - intros lbl val Hact Hlbl Hval. unfold compose_annot.
    apply sort_len_desc_in, in_or_app. left. rewrite Hact.
    cbn [flat_map]. rewrite app_nil_r.
    apply in_flat_map. exists lbl. split.
    + destruct ann_label; [destruct Hlbl | exact Hlbl | exact Hlbl].
    + destruct (arg_list ann_value) as [| v0 vs] eqn:Ev; [destruct Hval|].
      apply in_flat_map. exists val. split; [exact Hval|].
      left. reflexivity.
  - intros Hval other_unit. unfold compose_annot. rewrite Hval. reflexivity.
Qed.

Lemma string_length_append (s1 s2 : string) :
  String.length (s1 ++ s2) = (String.length s1 + String.length s2)%nat.
Proof. induction s1 as [| c s1 IH]; cbn; [reflexivity | now rewrite IH]. Qed.

Lemma to_digits_head (fuel : nat) (base n : Z) (acc : string) :
  exists d s, PyStr.to_digits (S fuel) base n acc = String (PyStr.digit_char d) s.
Proof.
  revert n acc. induction fuel as [| fuel IH]; intros n acc.
  - cbn [PyStr.to_digits]. destruct (_ =? _); eauto.
  - change (PyStr.to_digits (S (S fuel)) base n acc)
      with (let acc' := String (PyStr.digit_char (n mod base)) acc in
            if n / base =? 0 then acc'
            else PyStr.to_digits (S fuel) base (n / base) acc').
    cbv zeta. destruct (_ =? _); [eauto | apply IH].
Qed.

Lemma format_data_nonempty (data : Z) (radix : string) :
  (0 < String.length (format_data data radix))%nat.
Proof.
  assert (forall prefix base width,
            (0 < String.length (PyStr.format_int prefix base width data))%nat)
    as H.
  { intros prefix base width. unfold PyStr.format_int. cbv zeta.
    rewrite !string_length_append. unfold PyStr.digits.
    destruct (to_digits_head (Z.to_nat (Z.log2 (Z.abs data))) base
                (Z.abs data) EmptyString) as (d & s & ->).
    cbn [String.length]. lia. }
  unfold format_data. cbv zeta.
  destruct (_ =? _)%string; [apply H|].
  destruct (_ =? _)%string; [apply H|].
  destruct (_ =? _)%string; apply H.
Qed.

(** Deciding the comparisons of lengths met when the texts are sorted. *)
Ltac order_texts :=
  repeat (cbn [PyStr.insert_desc fold_right String.length];
          match goal with
          | |- context [(?a <? ?b)%nat] =>
              first [ destruct (Nat.ltb_spec a b); [lia |]
                    | destruct (Nat.ltb_spec a b); [| lia] ]
          end).

(** X3: the texts of the annotation of a byte, as the data handlers
    compose them: each label of the command with the formatted value,
    from the longest label to the shortest, then the last two labels
    alone. *)
Theorem byte_annotation_texts (data : Z) (radix : string) :
  let value := format_data data radix in
  compose_annot (ArgList (protocol COMMAND)) (ArgStr value) ArgNone ArgNone =
    [("Command: " ++ value)%string; ("Cmd: " ++ value)%string;
     ("C: " ++ value)%string; "Cmd"; "C"] /\
  compose_annot (ArgList (protocol DATA)) (ArgStr value) ArgNone ArgNone =
    [("Data: " ++ value)%string; ("D: " ++ value)%string; "Data"; "D"].
Proof.
  cbv zeta. pose proof (format_data_nonempty data radix) as Hv.
  destruct (format_data data radix) as [| c v]; [cbn in Hv; lia|].
  split; unfold compose_annot, PyStr.sort_len_desc;
    cbn -[Nat.ltb PyStr.insert_desc];
    order_texts; reflexivity.
Qed.

(* ###################################################################### *)
(** * Reading back the text of [format_data] *)

Lemma digit_value_char (d : Z) :
  0 <= d < 16 -> digit_value (PyStr.digit_char d) = d.
Proof.
  intros Hd.
  assert (forallb (fun k => digit_value (PyStr.digit_char (Z.of_nat k))
                            =? Z.of_nat k) (seq 0 16) = true) as Hall
      by reflexivity.
  rewrite forallb_forall in Hall. specialize (Hall (Z.to_nat d)).
  rewrite Z2Nat.id in Hall by lia.
  apply Z.eqb_eq, Hall, in_seq. lia.
Qed.

Lemma digit_char_not_minus (d : Z) :
  0 <= d < 16 -> PyStr.digit_char d <> "-"%char.
Proof.
  intros Hd E. pose proof (digit_value_char d Hd) as H.
  rewrite E in H. cbn in H. lia.
Qed.

(** The digits written by [to_digits] read back as the number. *)
Lemma read_to_digits (base : Z) (fuel : nat) :
  2 <= base <= 16 ->
  forall n acc,
    0 <= n < base ^ Z.of_nat fuel ->
    read_digits base 0 (PyStr.to_digits fuel base n acc) =
      read_digits base n acc.
Proof.
  intros Hb. induction fuel as [| fuel IH]; intros n acc Hn.
  - cbn [PyStr.to_digits]. change (base ^ Z.of_nat 0) with 1 in Hn.
    now replace n with 0 by lia.
  - cbn [PyStr.to_digits]. cbv zeta.
    assert (0 <= n mod base < base) as Hm by (apply Z.mod_pos_bound; lia).
    assert (n = base * (n / base) + n mod base) as Hdiv
        by (apply Z.div_mod; lia).
    destruct (n / base =? 0) eqn:E.
    + apply Z.eqb_eq in E. cbn [read_digits].
      rewrite digit_value_char by lia. f_equal. lia.
    + rewrite IH.
      * cbn [read_digits]. rewrite digit_value_char by lia. f_equal. lia.
      * rewrite Nat2Z.inj_succ, Z.pow_succ_r in Hn by lia.
        split; [apply Z.div_pos; lia|].
        apply Z.div_lt_upper_bound; lia.
Qed.

Lemma read_digits_of (base n : Z) :
  2 <= base <= 16 -> 0 <= n ->
  read_digits base 0 (PyStr.digits base n) = n.
Proof.
  intros Hb Hn. unfold PyStr.digits. rewrite read_to_digits; [reflexivity | exact Hb |].
  split; [exact Hn|].
  rewrite Nat2Z.inj_succ, Z2Nat.id by apply Z.log2_nonneg.
  destruct (Z.eq_dec n 0) as [-> | Hnz].
  - cbn. lia.
  - apply Z.lt_le_trans with (2 ^ Z.succ (Z.log2 n)).
    + apply Z.log2_spec. lia.
    + apply Z.pow_le_mono_l. lia.
Qed.

Lemma read_digits_zeros (base : Z) (k : nat) (s : string) :
  read_digits base 0 (PyStr.zeros k ++ s) = read_digits base 0 s.
Proof. induction k as [| k IH]; [reflexivity | exact IH]. Qed.

Lemma digits_head (base n : Z) :
  2 <= base <= 16 ->
  exists d s, 0 <= d < 16 /\ PyStr.digits base n = String (PyStr.digit_char d) s.
Proof.
  intros Hb. unfold PyStr.digits.
  generalize (Z.to_nat (Z.log2 n)) as fuel. intros fuel.
  generalize EmptyString as acc. revert n.
  induction fuel as [| fuel IH]; intros n acc.
  - cbn [PyStr.to_digits]. cbv zeta.
    assert (0 <= n mod base < base) by (apply Z.mod_pos_bound; lia).
    destruct (_ =? _); exists (n mod base); eexists; (split; [lia | reflexivity]).
  - change (PyStr.to_digits (S (S fuel)) base n acc)
      with (let acc' := String (PyStr.digit_char (n mod base)) acc in
            if n / base =? 0 then acc'
            else PyStr.to_digits (S fuel) base (n / base) acc').
    cbv zeta.
    assert (0 <= n mod base < base) by (apply Z.mod_pos_bound; lia).
    destruct (_ =? _); [| apply IH].
    exists (n mod base). eexists. split; [lia | reflexivity].
Qed.

Lemma drop_prefix (prefix s : string) :
  drop (String.length prefix) (prefix ++ s) = s.
Proof. induction prefix as [| c p IH]; [reflexivity | exact IH]. Qed.

(** Reading a text whose first character is not the sign. *)
Lemma read_unsigned (c : ascii) (s : string) (base : Z) (prefix : nat) :
  c <> "-"%char ->
  read_number base prefix (String c s) =
    read_digits base 0 (drop prefix (String c s)).
Proof.
  intros Hc. unfold read_number.
  destruct c as [[] [] [] [] [] [] [] []]; try reflexivity.
  now destruct Hc.
Qed.

(** Reading back [format_int]: [prefix] is a radix prefix, which does
    not begin with the sign. *)
Lemma read_format_int (prefix : string) (base : Z) (width : nat) (n : Z) :
  2 <= base <= 16 ->
  (prefix = EmptyString \/ exists s, prefix = String "0" s) ->
  read_number base (String.length prefix)
              (PyStr.format_int prefix base width n) = n.
Proof.
  intros Hb Hp. unfold PyStr.format_int. cbv zeta.
  set (k := (width - _)%nat). clearbody k.
  destruct (n <? 0) eqn:En.
  - apply Z.ltb_lt in En.
    change ("-" ++ prefix ++ PyStr.zeros k ++ PyStr.digits base (Z.abs n))%string
      with (String "-" (prefix ++ PyStr.zeros k ++ PyStr.digits base (Z.abs n))).
    unfold read_number.
    rewrite drop_prefix, read_digits_zeros, read_digits_of by lia.
    lia.
  - apply Z.ltb_ge in En.
    change (EmptyString ++ prefix ++ PyStr.zeros k ++ PyStr.digits base (Z.abs n))%string
      with (prefix ++ PyStr.zeros k ++ PyStr.digits base (Z.abs n))%string.
    assert (exists c s,
              (prefix ++ PyStr.zeros k ++ PyStr.digits base (Z.abs n))%string
              = String c s /\ c <> "-"%char) as (c & s & E & Hc).
    { destruct Hp as [-> | [s0 ->]].
      - destruct k as [| k].
        + destruct (digits_head base (Z.abs n) Hb) as (d & s & Hd & ->).
          exists (PyStr.digit_char d), s. split; [reflexivity|].
          now apply digit_char_not_minus.
        + eexists _, _. split; [reflexivity | discriminate].
      - eexists _, _. split; [reflexivity | discriminate]. }
    rewrite E, read_unsigned by exact Hc. rewrite <- E.
    rewrite drop_prefix, read_digits_zeros, read_digits_of by lia.
    lia.
Qed.

(** X4: the text of [format_data] reads back as the number, in every
    radix and for negative numbers too; so two numbers that are
    formatted alike in a radix are equal. *)
Theorem format_data_reads_back (radix : string) :
  (forall data, read_data (format_data data radix) radix = data) /\
  (forall data1 data2,
     format_data data1 radix = format_data data2 radix -> data1 = data2).
Proof.
  assert (forall data, read_data (format_data data radix) radix = data) as H.
  { intros data. unfold read_data, format_data. cbv zeta.
    destruct (_ =? _)%string.
    { apply (read_format_int EmptyString 10 0 data); [lia | now left]. }
    destruct (_ =? _)%string.
    { apply (read_format_int "0b" 2 0 data); [lia | right; eauto]. }
    destruct (_ =? _)%string.
    { apply (read_format_int "0o" 8 0 data); [lia | right; eauto]. }
    apply (read_format_int "0x" 16 4 data); [lia | right; eauto]. }
  split; [exact H|].
  intros data1 data2 E. rewrite <- (H data1), <- (H data2). now rewrite E.
Qed.
